(** * Sources, fetchers and file caches of the Checkmk data-acquisition layer

    A shallow embedding of [cmk/base/sources/_sources.py]: the ten [Source]
    classes, the [SourceInfo] each one reports, the [Fetcher] and the
    [FileCache] each one builds, together with the parts of the fetcher,
    file-cache and SNMP layers that the sources rely on. *)

From Stdlib Require Import Ascii.
From stdpp Require Import base strings gmap list.

(** ** [os.path.join] on POSIX

    [posixpath.join(a, *p)] starts from [a] and folds the remaining
    components in: an absolute component replaces what was built so far, a
    component appended to an empty path or to one that ends with the
    separator is appended as it is, any other one after a separator. *)

Definition sep : string := "/".

Definition startswith_sep (s : string) : bool :=
  match s with
  | String c _ => Ascii.eqb c "/"%char
  | EmptyString => false
  end.

Fixpoint endswith_sep (s : string) : bool :=
  match s with
  | EmptyString => false
  | String c EmptyString => Ascii.eqb c "/"%char
  | String _ rest => endswith_sep rest
  end.

Definition is_empty (s : string) : bool :=
  match s with
  | EmptyString => true
  | String _ _ => false
  end.

Definition join_component (path b : string) : string :=
  if startswith_sep b then b
  else if is_empty path || endswith_sep path then path +:+ b
  else path +:+ sep +:+ b.

Definition os_path_join (a : string) (p : list string) : string :=
  fold_left join_component p a.

(** ** Identity of a fetch: [SourceInfo] *)

Definition HostName : Type := string.
Definition HostAddress : Type := string.
Definition Path : Type := string.

Module FetcherType.
Inductive t : Type :=
| NONE | IPMI | PIGGYBACK | PUSH_AGENT | PROGRAM | SPECIAL_AGENT | SNMP | TCP.
End FetcherType.

Module SourceType.
Inductive t : Type := HOST | MANAGEMENT.
End SourceType.

Record SourceInfo : Type := mkSourceInfo {
  hostname : HostName;
  ipaddress : option HostAddress;
  ident : string;
  fetcher_type : FetcherType.t;
  source_type : SourceType.t
}.

Inductive SNMPBackendEnum : Type := INLINE | CLASSIC | STORED_WALK.

(** ** File caches *)

(** Modelled from the spec: [MaxAge] (declared in [cmk.fetchers.filecache],
    which is not part of the sources at hand) is either a bounded duration
    or "unlimited". *)
Inductive MaxAge : Type :=
| bounded (seconds : nat)
| unlimited.

Module FileCacheMode.
(** Modelled from the spec: [FileCacheMode] (declared in
    [cmk.fetchers.filecache]) is one of DISABLED (never read or write), READ
    (consult the cache, never write back) and READ_WRITE. *)
Inductive t : Type := DISABLED | READ | READ_WRITE.

Definition permits_read (m : t) : bool :=
  match m with DISABLED => false | READ | READ_WRITE => true end.

Definition permits_write (m : t) : bool :=
  match m with READ_WRITE => true | DISABLED | READ => false end.

(** How much a mode allows: reading is more than nothing, writing back is
    more than reading. *)
Definition rank (m : t) : nat :=
  match m with DISABLED => 0 | READ => 1 | READ_WRITE => 2 end.

Definition le (m1 m2 : t) : Prop := rank m1 <= rank m2.
End FileCacheMode.

(** The run-wide options, with the four fields the sources read. *)
Record FileCacheOptions : Type := mkFileCacheOptions {
  disabled : bool;
  use_outdated : bool;
  use_only_cache : bool;
  tcp_use_only_cache : bool
}.

(** Modelled from the spec: [FileCacheOptions.file_cache_mode()], the run-wide
    mode: DISABLED when caching is globally disabled and the normal READ_WRITE
    operation otherwise. *)
Definition file_cache_mode (o : FileCacheOptions) : FileCacheMode.t :=
  if disabled o then FileCacheMode.DISABLED else FileCacheMode.READ_WRITE.

(** The keyword arguments shared by [SNMPFileCache] and [AgentFileCache]. *)
Record FileCacheArgs : Type := mkFileCacheArgs {
  fc_path_template : string;
  fc_max_age : MaxAge;
  fc_simulation : bool;
  fc_use_only_cache : bool;
  fc_file_cache_mode : FileCacheMode.t
}.

Inductive FileCache : Type :=
| SNMPFileCache (args : FileCacheArgs)
| AgentFileCache (args : FileCacheArgs)
| NoCache.

(** The module-level singleton [_NO_CACHE]. *)
Definition _NO_CACHE : FileCache := NoCache.

Definition cache_args (c : FileCache) : option FileCacheArgs :=
  match c with
  | SNMPFileCache a | AgentFileCache a => Some a
  | NoCache => None
  end.

Definition cache_path (c : FileCache) : option string :=
  fc_path_template <$> cache_args c.

Definition cache_mode (c : FileCache) : option FileCacheMode.t :=
  fc_file_cache_mode <$> cache_args c.

Definition cache_max_age (c : FileCache) : option MaxAge :=
  fc_max_age <$> cache_args c.

Definition cache_use_only_cache (c : FileCache) : option bool :=
  fc_use_only_cache <$> cache_args c.

(** *** Reading and writing a cache

    Modelled from the spec: the read and write operations of the file-cache
    classes ([cmk.fetchers.filecache] is not part of the sources at hand).
    The persisted state maps a path to the raw payload and the time of its
    last write.  A read returns data only if an entry exists, it is fresh
    for the configured max-age and the mode permits reading; a write does
    nothing unless the mode is READ_WRITE; the no-op cache always misses and
    discards what it is given. *)

Definition RawData : Type := string.

Record CacheEntry : Type := mkCacheEntry {
  payload : RawData;
  written_at : nat
}.

Definition is_fresh (limit : MaxAge) (now : nat) (e : CacheEntry) : bool :=
  match limit with
  | unlimited => true
  | bounded d => Nat.leb (now - written_at e) d
  end.

Definition FileCache_read
    (c : FileCache) (now : nat) (st : gmap string CacheEntry) : option RawData :=
  match cache_args c with
  | None => None
  | Some a =>
      if FileCacheMode.permits_read (fc_file_cache_mode a) then
        match st !! fc_path_template a with
        | Some e => if is_fresh (fc_max_age a) now e then Some (payload e) else None
        | None => None
        end
      else None
  end.

Definition FileCache_write
    (c : FileCache) (now : nat) (data : RawData) (st : gmap string CacheEntry)
    : gmap string CacheEntry :=
  match cache_args c with
  | None => st
  | Some a =>
      if FileCacheMode.permits_write (fc_file_cache_mode a)
      then <[fc_path_template a := mkCacheEntry data now]> st
      else st
  end.

(** ** Fetchers *)

Inductive NoFetcherError : Type := NO_FETCHER | MISSING_IP.

Inductive FetchError : Type :=
| NoFetcherFailure (reason : NoFetcherError)
| TransportFailure (message : string).

(** A fetcher is either the no-fetcher, built in this module with the reason
    it will fail with, or one of the protocol fetchers, which the
    configuration cache builds. *)
Inductive Fetcher (F : Type) : Type :=
| NoFetcher (canned : NoFetcherError)
| Configured (f : F).

Arguments NoFetcher {F} canned.
Arguments Configured {F} f.

(** The factory methods of [ConfigCache] that the sources call, and what
    running a protocol fetcher does to the world [W] outside (network,
    child processes): [cmk.base.config] and [cmk.fetchers] are not part of
    the sources at hand, so both are parameters. *)
Class ConfigCacheMethods
    (ConfigCache SNMPScanConfig SectionNameCollection TLSConfig F W : Type) := {
  make_snmp_fetcher :
    ConfigCache -> HostName -> HostAddress -> SNMPScanConfig ->
    SectionNameCollection -> Path -> Path -> SourceType.t ->
    option SNMPBackendEnum -> Fetcher F;
  make_ipmi_fetcher : ConfigCache -> HostName -> HostAddress -> Fetcher F;
  make_program_fetcher :
    ConfigCache -> HostName -> option HostAddress -> string -> option string ->
    Fetcher F;
  make_tcp_fetcher : ConfigCache -> HostName -> HostAddress -> TLSConfig -> Fetcher F;
  make_special_agent_fetcher : ConfigCache -> string -> option string -> Fetcher F;
  make_piggyback_fetcher : ConfigCache -> HostName -> option HostAddress -> Fetcher F;
  configured_fetch : F -> W -> (FetchError + RawData) * W
}.

(** Modelled from the spec: [NoFetcher.fetch] never attempts I/O and fails at
    once with the reason it was built with; the world is handed back as it
    was received. *)
Definition fetch {ConfigCache SNMPScanConfig SectionNameCollection TLSConfig F W : Type}
    {methods : ConfigCacheMethods ConfigCache SNMPScanConfig SectionNameCollection TLSConfig F W}
    (f : Fetcher F) (w : W) : (FetchError + RawData) * W :=
  match f with
  | NoFetcher reason => (inl (NoFetcherFailure reason), w)
  | Configured g => configured_fetch g w
  end.

(** A configuration cache for closed examples: every factory hands out the
    one protocol fetcher there is, and running it records the attempt in the
    world, a log of what was tried, and times out. *)
Definition logging_config_cache : ConfigCacheMethods unit unit unit unit unit (list string) := {|
  make_snmp_fetcher _ _ _ _ _ _ _ _ _ := Configured ();
  make_ipmi_fetcher _ _ _ := Configured ();
  make_program_fetcher _ _ _ _ _ := Configured ();
  make_tcp_fetcher _ _ _ _ := Configured ();
  make_special_agent_fetcher _ _ _ := Configured ();
  make_piggyback_fetcher _ _ _ := Configured ();
  configured_fetch _ log := (inl (TransportFailure "timed out"), log ++ ["connect"])
|}.

(** The same factory methods as calls on a configuration cache that lives in
    the world outside: a call may read and change that world (the caches a
    [ConfigCache] keeps, for one) and hands it back with the fetcher. *)
Class ConfigCacheCalls
    (ConfigCache SNMPScanConfig SectionNameCollection TLSConfig F W : Type) := {
  call_make_snmp_fetcher :
    ConfigCache -> HostName -> HostAddress -> SNMPScanConfig ->
    SectionNameCollection -> Path -> Path -> SourceType.t ->
    option SNMPBackendEnum -> W -> Fetcher F * W;
  call_make_ipmi_fetcher : ConfigCache -> HostName -> HostAddress -> W -> Fetcher F * W;
  call_make_program_fetcher :
    ConfigCache -> HostName -> option HostAddress -> string -> option string ->
    W -> Fetcher F * W;
  call_make_tcp_fetcher :
    ConfigCache -> HostName -> HostAddress -> TLSConfig -> W -> Fetcher F * W;
  call_make_special_agent_fetcher :
    ConfigCache -> string -> option string -> W -> Fetcher F * W;
  call_make_piggyback_fetcher :
    ConfigCache -> HostName -> option HostAddress -> W -> Fetcher F * W
}.

(** The factories answer one call the same way in every world: what they
    hand out depends on their arguments only. *)
Definition replies_settled
    {ConfigCache SNMPScanConfig SectionNameCollection TLSConfig F W : Type}
    (calls : ConfigCacheCalls ConfigCache SNMPScanConfig SectionNameCollection TLSConfig F W)
    : Prop :=
  (∀ cc host ip scan sections walks walk_cache kind backend w w',
     (call_make_snmp_fetcher cc host ip scan sections walks walk_cache kind backend w).1
     = (call_make_snmp_fetcher cc host ip scan sections walks walk_cache kind backend w').1)
  ∧ (∀ cc host ip w w',
       (call_make_ipmi_fetcher cc host ip w).1 = (call_make_ipmi_fetcher cc host ip w').1)
  ∧ (∀ cc host ip program stdin w w',
       (call_make_program_fetcher cc host ip program stdin w).1
       = (call_make_program_fetcher cc host ip program stdin w').1)
  ∧ (∀ cc host ip tls w w',
       (call_make_tcp_fetcher cc host ip tls w).1
       = (call_make_tcp_fetcher cc host ip tls w').1)
  ∧ (∀ cc cmdline stdin w w',
       (call_make_special_agent_fetcher cc cmdline stdin w).1
       = (call_make_special_agent_fetcher cc cmdline stdin w').1)
  ∧ (∀ cc host ip w w',
       (call_make_piggyback_fetcher cc host ip w).1
       = (call_make_piggyback_fetcher cc host ip w').1).

(** Factories for closed examples that note each call in the world, a log,
    and hand out the one protocol fetcher there is. *)
Definition logging_calls : ConfigCacheCalls unit unit unit unit unit (list string) := {|
  call_make_snmp_fetcher _ _ _ _ _ _ _ _ _ log := (Configured (), log ++ ["make_snmp_fetcher"]);
  call_make_ipmi_fetcher _ _ _ log := (Configured (), log ++ ["make_ipmi_fetcher"]);
  call_make_program_fetcher _ _ _ _ _ log := (Configured (), log ++ ["make_program_fetcher"]);
  call_make_tcp_fetcher _ _ _ _ log := (Configured (), log ++ ["make_tcp_fetcher"]);
  call_make_special_agent_fetcher _ _ _ log :=
    (Configured (), log ++ ["make_special_agent_fetcher"]);
  call_make_piggyback_fetcher _ _ _ log := (Configured (), log ++ ["make_piggyback_fetcher"])
|}.

(** ** SNMP acquisition: [get_single_oid] and [get_snmp_table]

    The module that implements them ([cmk_base/snmp.py]) is not part of the
    sources at hand; its integration tests ([test_snmp.py]) are. *)

Definition OID : Type := string.

Inductive Credentials : Type :=
| Community (name : string)
| SNMPv3 (level protocol user key : string).

(** The per-host parameters, as the tests build them. *)
Record SNMPHostConfig : Type := mkSNMPHostConfig {
  is_ipv6_primary : bool;
  cfg_ipaddress : string;
  cfg_hostname : string;
  credentials : Credentials;
  port : nat;
  is_bulkwalk_host : bool;
  is_snmpv2or3_without_bulkwalk_host : bool;
  bulk_walk_size_of : nat;
  timing : list (string * nat);
  oid_range_limits : list string
}.

(** Modelled from the spec: the failure taxonomy of the transport
    (unresolvable address, credential rejection, timeout with no response). *)
Inductive TransportError : Type :=
| UnresolvableAddress
| CredentialRejection
| NoResponse.

(** Modelled from the spec: one backend strategy (live, capture replay or
    local client) with its capabilities.  A GET answers with the value or
    with nothing when the object does not exist, a GET-NEXT with the next
    instance, a walk with the instances below an OID; each may fail in the
    transport instead. *)
Record SNMPBackend : Type := mkSNMPBackend {
  backend_get : SNMPHostConfig -> OID -> TransportError + option string;
  backend_getnext : SNMPHostConfig -> OID -> TransportError + option (OID * string);
  backend_walk : SNMPHostConfig -> bool -> OID -> TransportError + list (OID * string)
}.

(** What went over the network. *)
Inductive SNMPRequest : Type :=
| GET (host : string) (oid : OID)
| GETNEXT (host : string) (oid : OID)
| WALK (host : string) (bulk : bool) (oid : OID).

(** The state the SNMP module works on: the single-OID cache of the run,
    keyed by host name and OID, and the requests sent so far. *)
Record SNMPState : Type := mkSNMPState {
  single_oid_cache : gmap (string * string) string;
  requests : list SNMPRequest
}.

Inductive SNMPException : Type :=
| MKGeneralException (message : string)
| MKSNMPError (reason : TransportError).

Definition startswith_dot (oid : OID) : bool :=
  match oid with
  | String c _ => Ascii.eqb c "."%char
  | EmptyString => false
  end.

(** [strip_prefix p s] is what follows [p] in [s], if [s] starts with [p]. *)
Fixpoint strip_prefix (p s : string) : option string :=
  match p, s with
  | EmptyString, _ => Some s
  | String a p', String b s' => if Ascii.eqb a b then strip_prefix p' s' else None
  | String _ _, EmptyString => None
  end.

(** The index suffix of an instance below a column: what follows the OID of
    the column in the name of the instance, without the dot that leads it. *)
Fixpoint lstrip_dots (s : string) : string :=
  match s with
  | String c rest => if Ascii.eqb c "."%char then lstrip_dots rest else s
  | EmptyString => s
  end.

Definition index_suffix (column_oid name : OID) : option string :=
  lstrip_dots <$> strip_prefix column_oid name.

(** [wildcard_prefix oid] is [Some p] when [oid] is [p] followed by the
    wildcard marker [.*]. *)
Fixpoint wildcard_prefix (oid : OID) : option OID :=
  match oid with
  | EmptyString => None
  | String c rest =>
      if String.eqb oid ".*" then Some EmptyString
      else String c <$> wildcard_prefix rest
  end.

(** Modelled from the spec: [get_single_oid].  The OID must be fully
    qualified, otherwise the call fails with a format error; the single-OID
    cache is consulted first; on a miss one GET is sent, or one GET-NEXT when
    the OID ends in the wildcard marker, which yields the name of the next
    instance; a textual result is cached and returned, and a target that does
    not exist yields the absent result.  What a transport failure yields is
    taken from the tests under [tests/integration/cmk_base/snmp]:
    [test_get_single_oid_wrong_credentials] and
    [test_get_single_oid_not_resolvable] both expect [None], the value
    [test_get_single_oid_not_existing] expects. *)
Definition get_single_oid
    (backend : SNMPBackend) (snmp_config : SNMPHostConfig) (oid : OID)
    (st : SNMPState) : (SNMPException + option string) * SNMPState :=
  if negb (startswith_dot oid) then
    (inl (MKGeneralException "OID definition does not begin with a '.'"), st)
  else
    match single_oid_cache st !! (cfg_hostname snmp_config, oid) with
    | Some value => (inr (Some value), st)
    | None =>
        let '(value, request) :=
          match wildcard_prefix oid with
          | Some prefix =>
              (match backend_getnext backend snmp_config prefix with
               | inr (Some (name, _)) => Some name
               | inr None => None
               | inl _ => None
               end, GETNEXT (cfg_hostname snmp_config) prefix)
          | None =>
              (match backend_get backend snmp_config oid with
               | inr (Some text) => Some text
               | inr None => None
               | inl _ => None
               end, GET (cfg_hostname snmp_config) oid)
          end in
        let cache :=
          match value with
          | Some text => <[(cfg_hostname snmp_config, oid) := text]> (single_oid_cache st)
          | None => single_oid_cache st
          end in
        (inr value, mkSNMPState cache (requests st ++ [request]))
    end.

(** Modelled from the spec: the column walks of [get_snmp_table].  Each
    requested column is walked once, in order, in bulk when the host is
    eligible; the first transport failure ends the fetch and is raised as an
    SNMP error, as [test_get_simple_snmp_table_not_resolvable] and
    [test_get_simple_snmp_table_wrong_credentials] expect. *)
Fixpoint walk_columns
    (backend : SNMPBackend) (snmp_config : SNMPHostConfig) (base : OID)
    (columns : list string) (sent : list SNMPRequest)
    : (TransportError + list (list (string * string))) * list SNMPRequest :=
  match columns with
  | [] => (inr [], sent)
  | column :: rest =>
      let oid := base +:+ "." +:+ column in
      let bulk := is_bulkwalk_host snmp_config in
      let sent' := sent ++ [WALK (cfg_hostname snmp_config) bulk oid] in
      match backend_walk backend snmp_config bulk oid with
      | inl failure => (inl failure, sent')
      | inr instances =>
          let cells :=
            omap (fun '(name, text) =>
                    (fun suffix => (suffix, text)) <$> index_suffix oid name)
                 instances in
          match walk_columns backend snmp_config base rest sent' with
          | (inl failure, sent'') => (inl failure, sent'')
          | (inr others, sent'') => (inr (cells :: others), sent'')
          end
      end
  end.

Definition cell_of (suffix : string) (cells : list (string * string)) : option string :=
  snd <$> List.find (fun cell => String.eqb (fst cell) suffix) cells.

(** A row is emitted for an index suffix only when every requested column
    reports a value for it. *)
Definition assemble_rows (table : list (list (string * string))) : list (list string) :=
  match table with
  | [] => []
  | first :: _ =>
      omap (fun '(suffix, _) => mapM (cell_of suffix) table) first
  end.

(** Modelled from the spec: [get_snmp_table] on plain column OIDs (the
    special column markers, which read no OID, are left out). *)
Definition get_snmp_table
    (backend : SNMPBackend) (snmp_config : SNMPHostConfig)
    (oid_info : OID * list string) (st : SNMPState)
    : (SNMPException + list (list string)) * SNMPState :=
  let '(base, columns) := oid_info in
  match walk_columns backend snmp_config base columns (requests st) with
  | (inl failure, sent) => (inl (MKSNMPError failure), mkSNMPState (single_oid_cache st) sent)
  | (inr table, sent) => (inr (assemble_rows table), mkSNMPState (single_oid_cache st) sent)
  end.

(** *** The hosts and agents of the test-suite *)

(** The configuration of the simulated agent at [127.0.0.1:1337]. *)
Definition snmpsim_config : SNMPHostConfig :=
  mkSNMPHostConfig false "127.0.0.1" "localhost" (Community "public") 1337
    false true 10 [] [].

(** An agent that answers for the system description, the system object
    identifier and the system name only. *)
Definition snmpsim_get (oid : OID) : option string :=
  if String.eqb oid ".1.3.6.1.2.1.1.1.0"
  then Some "Linux zeus 4.8.6.5-smp #2 SMP Sun Nov 13 14:58:11 CDT 2016 i686"
  else if String.eqb oid ".1.3.6.1.2.1.1.2.0" then Some ".1.3.6.1.4.1.8072.3.2.10"
  else if String.eqb oid ".1.3.6.1.2.1.1.5.0" then Some "new system name"
  else None.

Definition snmpsim_walk (oid : OID) : list (OID * string) :=
  match snmpsim_get oid with
  | Some text => [(oid, text)]
  | None => []
  end.

(** The agent accepts the community [public] at a resolvable address; a
    wrong community is met with silence and an unknown name cannot be
    resolved. *)
Definition transport_error (snmp_config : SNMPHostConfig) : option TransportError :=
  if negb (String.eqb (cfg_ipaddress snmp_config) "127.0.0.1") then Some UnresolvableAddress
  else match credentials snmp_config with
       | Community "public" => None
       | _ => Some CredentialRejection
       end.

Definition snmpsim_backend : SNMPBackend := {|
  backend_get snmp_config oid :=
    match transport_error snmp_config with
    | Some failure => inl failure
    | None => inr (snmpsim_get oid)
    end;
  backend_getnext snmp_config oid :=
    match transport_error snmp_config with
    | Some failure => inl failure
    | None => inr None
    end;
  backend_walk snmp_config bulk oid :=
    match transport_error snmp_config with
    | Some failure => inl failure
    | None => inr (snmpsim_walk oid)
    end
|}.



(** The state the [clear_cache] fixture leaves: an empty single-OID cache,
    and nothing sent yet. *)
Definition cleared : SNMPState := mkSNMPState ∅ [].

(** ** The node-conditions check of the Kubernetes plug-in

    A shallow embedding of [check] of
    [cmk/base/plugins/agent_based/kube_node_conditions.py]. *)

(** What the check takes from outside: the [State] enumeration of the
    agent-based API with its members OK and CRIT, the conversion [State(n)]
    from an integer, which fails on an integer that is no state, and
    [int(state)] back; and [str.upper]. *)
Class PluginRuntime (State : Type) := {
  State_OK : State;
  State_CRIT : State;
  State_of_int : Z → option State;
  int_of_State : State → Z;
  upper : string → string
}.

(** A node condition with its attributes as an f-string prints them, and
    what its [is_ok()] answers. *)
Record NodeCondition : Type := mkNodeCondition {
  status : string;
  reason : string;
  detail : string;
  is_ok : bool
}.

(** What iterating over the section gives: the name of each condition with
    the condition, or with [None] when the node does not report it. *)
Definition NodeConditions : Type := list (string * option NodeCondition).

(** A [Result] as the check builds it: the keyword arguments of the call
    [Result(state=..., summary=..., details=...)]. *)
Record Result (State : Type) : Type := mkResult {
  state : State;
  summary : string;
  details : string
}.

Arguments mkResult {State} state summary details.
Arguments state {State} r.
Arguments summary {State} r.
Arguments details {State} r.

Inductive CheckException : Type :=
| AttributeError
| KeyError (key : string)
| ValueError (value : Z).

Definition newline : string := String "010"%char EmptyString.

(** [cond and cond.is_ok()], as [all] tests it. *)
Definition passes (cond : option NodeCondition) : bool :=
  match cond with
  | Some c => is_ok c
  | None => false
  end.

(** The line of one condition in the details of the summary result; reading
    an attribute of [None] raises. *)
Definition summary_line {State : Type} {runtime : PluginRuntime State}
    (item : string * option NodeCondition) : option string :=
  let '(name, cond) := item in
  (λ c, upper name +:+ ": " +:+ status c
        +:+ " (" +:+ reason c +:+ ": " +:+ detail c +:+ ")") <$> cond.

(** The loop over the conditions, one result each, as far as the code of
    the check goes: the results it builds and the exception its own
    statements raise.  The generator yields as it goes: what it has yielded
    when an exception ends it stays yielded.  What the constructor [Result]
    makes of each call comes in with [check_each_built] below. *)
Fixpoint check_each {State : Type} {runtime : PluginRuntime State}
    (params : gmap string Z) (section : NodeConditions)
    : list (Result State) * option CheckException :=
  match section with
  | [] => ([], None)
  | (name, cond) :: rest =>
      match cond with
      | None => ([], Some AttributeError)
      | Some c =>
          let summary := upper name +:+ ": " +:+ status c in
          let details := summary +:+ " (" +:+ reason c +:+ ": " +:+ detail c +:+ ")" in
          if negb (is_ok c) then
            match params !! name with
            | None => ([], Some (KeyError name))
            | Some n =>
                match State_of_int n with
                | None => ([], Some (ValueError n))
                | Some state =>
                    let '(results, raised) := check_each params rest in
                    (mkResult state details details :: results, raised)
                end
            end
          else
            let '(results, raised) := check_each params rest in
            (mkResult State_OK summary details :: results, raised)
      end
  end.

Definition check {State : Type} {runtime : PluginRuntime State}
    (params : gmap string Z) (section : NodeConditions)
    : list (Result State) * option CheckException :=
  if forallb (λ item, passes item.2) section then
    match mapM summary_line section with
    | Some lines =>
        ([mkResult State_OK "Ready, all conditions passed"
            (String.concat newline lines)], None)
    | None => ([], Some AttributeError)
    end
  else check_each params section.

(** [check_default_parameters] of the registration. *)
Definition check_default_parameters {State : Type} {runtime : PluginRuntime State}
    : gmap string Z :=
  list_to_map
    [ ("ready", int_of_State State_CRIT);
      ("memorypressure", int_of_State State_CRIT);
      ("diskpressure", int_of_State State_CRIT);
      ("pidpressure", int_of_State State_CRIT);
      ("networkunavailable", int_of_State State_CRIT) ].

(** *** The check with the constructor of [Result]

    [Result] belongs to the agent-based API, which validates the arguments
    and raises on some of them: [Result_raises state summary details] is the
    message of the exception the constructor raises on these arguments, or
    [None] when it builds the result. *)
Class ResultConstructor (State : Type) := {
  Result_raises : State → string → string → option string
}.

(** What ends a check: an exception of its own statements, or one raised by
    the constructor of [Result]. *)
Inductive Raised : Type :=
| InCheck (e : CheckException)
| InResult (message : string).

(** [yield Result(state=..., summary=..., details=...)], and on with the
    rest of the generator if the constructor did not raise. *)
Definition yield_result {State : Type} {constructor : ResultConstructor State}
    (state : State) (summary details : string)
    (rest : list (Result State) * option Raised)
    : list (Result State) * option Raised :=
  match Result_raises state summary details with
  | Some message => ([], Some (InResult message))
  | None => (mkResult state summary details :: rest.1, rest.2)
  end.

Fixpoint check_each_built {State : Type} {runtime : PluginRuntime State}
    {constructor : ResultConstructor State}
    (params : gmap string Z) (section : NodeConditions)
    : list (Result State) * option Raised :=
  match section with
  | [] => ([], None)
  | (name, cond) :: rest =>
      match cond with
      | None => ([], Some (InCheck AttributeError))
      | Some c =>
          let summary := upper name +:+ ": " +:+ status c in
          let details := summary +:+ " (" +:+ reason c +:+ ": " +:+ detail c +:+ ")" in
          if negb (is_ok c) then
            match params !! name with
            | None => ([], Some (InCheck (KeyError name)))
            | Some n =>
                match State_of_int n with
                | None => ([], Some (InCheck (ValueError n)))
                | Some state =>
                    yield_result state details details (check_each_built params rest)
                end
            end
          else yield_result State_OK summary details (check_each_built params rest)
      end
  end.

Definition check_built {State : Type} {runtime : PluginRuntime State}
    {constructor : ResultConstructor State}
    (params : gmap string Z) (section : NodeConditions)
    : list (Result State) * option Raised :=
  if forallb (λ item, passes item.2) section then
    match mapM summary_line section with
    | Some lines =>
        yield_result State_OK "Ready, all conditions passed"
          (String.concat newline lines) ([], None)
    | None => ([], Some (InCheck AttributeError))
    end
  else check_each_built params section.

(** The calls of [Result] that the loop makes for one condition that is
    reported: with state OK and the short summary when it passes, with the
    given state and the detailed line as summary when it does not. *)
Definition result_for {State : Type} {runtime : PluginRuntime State}
    (name : string) (c : NodeCondition) (configured : State) : Result State :=
  let summary := upper name +:+ ": " +:+ status c in
  let details := summary +:+ " (" +:+ reason c +:+ ": " +:+ detail c +:+ ")" in
  if is_ok c then mkResult State_OK summary details
  else mkResult configured details details.

Definition accepted {State : Type} {constructor : ResultConstructor State}
    (r : Result State) : Prop :=
  Result_raises (state r) (summary r) (details r) = None.

(** *** A runtime for closed examples: the four states of the API, numbered
    from 0, and upper-casing of ASCII letters. *)

Module State.
Inductive t : Type := OK | WARN | CRIT | UNKNOWN.

Definition of_int (n : Z) : option t :=
  match n with
  | 0%Z => Some OK
  | 1%Z => Some WARN
  | 2%Z => Some CRIT
  | 3%Z => Some UNKNOWN
  | _ => None
  end.

Definition to_int (s : t) : Z :=
  match s with OK => 0 | WARN => 1 | CRIT => 2 | UNKNOWN => 3 end.
End State.

Definition ascii_upper (c : ascii) : ascii :=
  let n := nat_of_ascii c in
  if Nat.leb 97 n && Nat.leb n 122 then ascii_of_nat (n - 32) else c.

Fixpoint string_upper (s : string) : string :=
  match s with
  | EmptyString => EmptyString
  | String c rest => String (ascii_upper c) (string_upper rest)
  end.

Definition ascii_runtime : PluginRuntime State.t := {|
  State_OK := State.OK;
  State_CRIT := State.CRIT;
  State_of_int := State.of_int;
  int_of_State := State.to_int;
  upper := string_upper
|}.

(** A node under memory pressure that does not report on its network. *)
Definition node_under_pressure : NodeConditions :=
  [ ("ready", Some (mkNodeCondition "True" "KubeletReady" "kubelet is posting ready status" true));
    ("memorypressure", Some (mkNodeCondition "True" "KubeletHasInsufficientMemory" "low on memory" false));
    ("networkunavailable", None) ].


(** A constructor for closed examples that refuses a summary with a line
    break in it. *)
Fixpoint has_newline (text : string) : bool :=
  match text with
  | EmptyString => false
  | String c rest => Ascii.eqb c "010"%char || has_newline rest
  end.

Definition one_line_summaries : ResultConstructor State.t := {|
  Result_raises _ summary _ :=
    if has_newline summary then Some "'\n' not allowed in 'summary'" else None
|}.

(** A node whose kubelet reports its trouble on two lines. *)
Definition node_with_long_story : NodeConditions :=
  [ ("ready",
     Some (mkNodeCondition "False" "KubeletNotReady"
             ("container runtime is down" +:+ newline +:+ "PLEG is not healthy") false)) ].

(** ** The sources

    One record per class, holding the attributes its constructor stores (all
    of them [Final]), and one function per method. *)

Section Sources.

Context {ConfigCache SNMPScanConfig SectionNameCollection TLSConfig F W : Type}.
Context {methods : ConfigCacheMethods ConfigCache SNMPScanConfig SectionNameCollection TLSConfig F W}.
Context {calls : ConfigCacheCalls ConfigCache SNMPScanConfig SectionNameCollection TLSConfig F W}.

(** *** [SNMPSource] *)

Record SNMPSource : Type := mkSNMPSource {
  snmp_config_cache : ConfigCache;
  snmp_host_name : HostName;
  snmp_ipaddress : HostAddress;
  snmp_scan_config : SNMPScanConfig;
  snmp_max_age : MaxAge;
  snmp_selected_sections : SectionNameCollection;
  snmp_backend_override : option SNMPBackendEnum;
  snmp_stored_walk_path : Path;
  snmp_walk_cache_path : Path;
  snmp_file_cache_path : Path
}.

Definition SNMPSource_source_info (self : SNMPSource) : SourceInfo :=
  mkSourceInfo (snmp_host_name self) (Some (snmp_ipaddress self)) "snmp"
    FetcherType.SNMP SourceType.HOST.

Definition SNMPSource_fetcher (self : SNMPSource) : Fetcher F :=
  make_snmp_fetcher (snmp_config_cache self) (snmp_host_name self)
    (snmp_ipaddress self) (snmp_scan_config self) (snmp_selected_sections self)
    (snmp_stored_walk_path self) (snmp_walk_cache_path self) SourceType.HOST
    (snmp_backend_override self).

Definition SNMPSource_file_cache
    (self : SNMPSource) (simulation : bool) (file_cache_options : FileCacheOptions)
    : FileCache :=
  SNMPFileCache {|
    fc_path_template :=
      os_path_join (snmp_file_cache_path self)
        [ident (SNMPSource_source_info self); "{mode}"; snmp_host_name self];
    fc_max_age := snmp_max_age self;
    fc_simulation := simulation;
    fc_use_only_cache := use_only_cache file_cache_options;
    fc_file_cache_mode := file_cache_mode file_cache_options
  |}.

(** *** [MgmtSNMPSource] *)

Record MgmtSNMPSource : Type := mkMgmtSNMPSource {
  mgmt_config_cache : ConfigCache;
  mgmt_host_name : HostName;
  mgmt_ipaddress : HostAddress;
  mgmt_scan_config : SNMPScanConfig;
  mgmt_max_age : MaxAge;
  mgmt_selected_sections : SectionNameCollection;
  mgmt_backend_override : option SNMPBackendEnum;
  mgmt_stored_walk_path : Path;
  mgmt_walk_cache_path : Path;
  mgmt_file_cache_path : Path
}.

Definition MgmtSNMPSource_source_info (self : MgmtSNMPSource) : SourceInfo :=
  mkSourceInfo (mgmt_host_name self) (Some (mgmt_ipaddress self)) "mgmt_snmp"
    FetcherType.SNMP SourceType.MANAGEMENT.

Definition MgmtSNMPSource_fetcher (self : MgmtSNMPSource) : Fetcher F :=
  make_snmp_fetcher (mgmt_config_cache self) (mgmt_host_name self)
    (mgmt_ipaddress self) (mgmt_scan_config self) (mgmt_selected_sections self)
    (mgmt_stored_walk_path self) (mgmt_walk_cache_path self) SourceType.MANAGEMENT
    (mgmt_backend_override self).

Definition MgmtSNMPSource_file_cache
    (self : MgmtSNMPSource) (simulation : bool) (file_cache_options : FileCacheOptions)
    : FileCache :=
  SNMPFileCache {|
    fc_path_template :=
      os_path_join (mgmt_file_cache_path self)
        [ident (MgmtSNMPSource_source_info self); "{mode}"; mgmt_host_name self];
    fc_max_age := mgmt_max_age self;
    fc_simulation := simulation;
    fc_use_only_cache := use_only_cache file_cache_options;
    fc_file_cache_mode := file_cache_mode file_cache_options
  |}.

(** *** [IPMISource] *)

Record IPMISource : Type := mkIPMISource {
  ipmi_config_cache : ConfigCache;
  ipmi_host_name : HostName;
  ipmi_ipaddress : HostAddress;
  ipmi_max_age : MaxAge;
  ipmi_file_cache_path : Path
}.

Definition IPMISource_source_info (self : IPMISource) : SourceInfo :=
  mkSourceInfo (ipmi_host_name self) (Some (ipmi_ipaddress self)) "mgmt_ipmi"
    FetcherType.IPMI SourceType.MANAGEMENT.

Definition IPMISource_fetcher (self : IPMISource) : Fetcher F :=
  make_ipmi_fetcher (ipmi_config_cache self) (ipmi_host_name self) (ipmi_ipaddress self).

Definition IPMISource_file_cache
    (self : IPMISource) (simulation : bool) (file_cache_options : FileCacheOptions)
    : FileCache :=
  AgentFileCache {|
    fc_path_template :=
      os_path_join (ipmi_file_cache_path self)
        [ident (IPMISource_source_info self); ipmi_host_name self];
    fc_max_age := ipmi_max_age self;
    fc_simulation := simulation;
    fc_use_only_cache := use_only_cache file_cache_options;
    fc_file_cache_mode := file_cache_mode file_cache_options
  |}.

(** *** [ProgramSource] *)

Record ProgramSource : Type := mkProgramSource {
  prog_config_cache : ConfigCache;
  prog_host_name : HostName;
  prog_ipaddress : option HostAddress;
  prog_program : string;
  prog_max_age : MaxAge;
  prog_file_cache_path : Path
}.

Definition ProgramSource_source_info (self : ProgramSource) : SourceInfo :=
  mkSourceInfo (prog_host_name self) (prog_ipaddress self) "agent"
    FetcherType.PROGRAM SourceType.HOST.

Definition ProgramSource_fetcher (self : ProgramSource) : Fetcher F :=
  make_program_fetcher (prog_config_cache self) (prog_host_name self)
    (prog_ipaddress self) (prog_program self) None.

Definition ProgramSource_file_cache
    (self : ProgramSource) (simulation : bool) (file_cache_options : FileCacheOptions)
    : FileCache :=
  AgentFileCache {|
    fc_path_template := os_path_join (prog_file_cache_path self) [prog_host_name self];
    fc_max_age := prog_max_age self;
    fc_simulation := simulation;
    fc_use_only_cache := use_only_cache file_cache_options;
    fc_file_cache_mode := file_cache_mode file_cache_options
  |}.

(** *** [PushAgentSource] *)

Record PushAgentSource : Type := mkPushAgentSource {
  push_host_name : HostName;
  push_ipaddress : option HostAddress;
  push_max_age : MaxAge;
  push_file_cache_path : Path
}.

Definition PushAgentSource_source_info (self : PushAgentSource) : SourceInfo :=
  mkSourceInfo (push_host_name self) (push_ipaddress self) "push-agent"
    FetcherType.PUSH_AGENT SourceType.HOST.

Definition PushAgentSource_fetcher (self : PushAgentSource) : Fetcher F :=
  NoFetcher NO_FETCHER.

Definition PushAgentSource_file_cache
    (self : PushAgentSource) (simulation : bool) (file_cache_options : FileCacheOptions)
    : FileCache :=
  AgentFileCache {|
    fc_path_template :=
      os_path_join (push_file_cache_path self)
        [ident (PushAgentSource_source_info self); push_host_name self; "agent_output"];
    fc_max_age :=
      if simulation || use_outdated file_cache_options
      then unlimited
      else push_max_age self;
    fc_simulation := simulation;
    fc_use_only_cache := true;
    fc_file_cache_mode :=
      if disabled file_cache_options
      then FileCacheMode.DISABLED
      else FileCacheMode.READ
  |}.

(** *** [TCPSource] *)

Record TCPSource : Type := mkTCPSource {
  tcp_config_cache : ConfigCache;
  tcp_host_name : HostName;
  tcp_ipaddress : HostAddress;
  tcp_max_age : MaxAge;
  tcp_file_cache_path : Path;
  tcp_tls_config : TLSConfig
}.

Definition TCPSource_source_info (self : TCPSource) : SourceInfo :=
  mkSourceInfo (tcp_host_name self) (Some (tcp_ipaddress self)) "agent"
    FetcherType.TCP SourceType.HOST.

Definition TCPSource_fetcher (self : TCPSource) : Fetcher F :=
  make_tcp_fetcher (tcp_config_cache self) (tcp_host_name self)
    (tcp_ipaddress self) (tcp_tls_config self).

Definition TCPSource_file_cache
    (self : TCPSource) (simulation : bool) (file_cache_options : FileCacheOptions)
    : FileCache :=
  AgentFileCache {|
    fc_path_template := os_path_join (tcp_file_cache_path self) [tcp_host_name self];
    fc_max_age := tcp_max_age self;
    fc_simulation := simulation;
    fc_use_only_cache :=
      tcp_use_only_cache file_cache_options || use_only_cache file_cache_options;
    fc_file_cache_mode := file_cache_mode file_cache_options
  |}.

(** *** [SpecialAgentSource] *)

Record SpecialAgentSource : Type := mkSpecialAgentSource {
  special_config_cache : ConfigCache;
  special_host_name : HostName;
  special_ipaddress : option HostAddress;
  special_max_age : MaxAge;
  special_agent_name : string;
  special_stdin : option string;
  special_cmdline : string;
  special_file_cache_path : Path
}.

Definition SpecialAgentSource_source_info (self : SpecialAgentSource) : SourceInfo :=
  mkSourceInfo (special_host_name self) (special_ipaddress self)
    ("special_" +:+ special_agent_name self)
    FetcherType.SPECIAL_AGENT SourceType.HOST.

Definition SpecialAgentSource_fetcher (self : SpecialAgentSource) : Fetcher F :=
  make_special_agent_fetcher (special_config_cache self)
    (special_cmdline self) (special_stdin self).

Definition SpecialAgentSource_file_cache
    (self : SpecialAgentSource) (simulation : bool)
    (file_cache_options : FileCacheOptions) : FileCache :=
  AgentFileCache {|
    fc_path_template :=
      os_path_join (special_file_cache_path self)
        [ident (SpecialAgentSource_source_info self); special_host_name self];
    fc_max_age := special_max_age self;
    fc_simulation := simulation;
    fc_use_only_cache := use_only_cache file_cache_options;
    fc_file_cache_mode := file_cache_mode file_cache_options
  |}.

(** *** [PiggybackSource] *)

Record PiggybackSource : Type := mkPiggybackSource {
  piggy_config_cache : ConfigCache;
  piggy_host_name : HostName;
  piggy_ipaddress : option HostAddress
}.

Definition PiggybackSource_source_info (self : PiggybackSource) : SourceInfo :=
  mkSourceInfo (piggy_host_name self) (piggy_ipaddress self) "piggyback"
    FetcherType.PIGGYBACK SourceType.HOST.

Definition PiggybackSource_fetcher (self : PiggybackSource) : Fetcher F :=
  make_piggyback_fetcher (piggy_config_cache self) (piggy_host_name self)
    (piggy_ipaddress self).

Definition PiggybackSource_file_cache
    (self : PiggybackSource) (simulation : bool)
    (file_cache_options : FileCacheOptions) : FileCache :=
  _NO_CACHE.

(** *** [MissingIPSource]: the address is [None] by its type *)

Record MissingIPSource : Type := mkMissingIPSource {
  noip_host_name : HostName;
  noip_ident : string
}.

Definition MissingIPSource_source_info (self : MissingIPSource) : SourceInfo :=
  mkSourceInfo (noip_host_name self) None (noip_ident self)
    FetcherType.NONE SourceType.HOST.

Definition MissingIPSource_fetcher (self : MissingIPSource) : Fetcher F :=
  NoFetcher MISSING_IP.

Definition MissingIPSource_file_cache
    (self : MissingIPSource) (simulation : bool)
    (file_cache_options : FileCacheOptions) : FileCache :=
  _NO_CACHE.

(** *** [MissingSourceSource] *)

Record MissingSourceSource : Type := mkMissingSourceSource {
  nosrc_host_name : HostName;
  nosrc_ipaddress : option HostAddress;
  nosrc_ident : string
}.

Definition MissingSourceSource_source_info (self : MissingSourceSource) : SourceInfo :=
  mkSourceInfo (nosrc_host_name self) (nosrc_ipaddress self) (nosrc_ident self)
    FetcherType.NONE SourceType.HOST.

Definition MissingSourceSource_fetcher (self : MissingSourceSource) : Fetcher F :=
  NoFetcher NO_FETCHER.

Definition MissingSourceSource_file_cache
    (self : MissingSourceSource) (simulation : bool)
    (file_cache_options : FileCacheOptions) : FileCache :=
  _NO_CACHE.

(** *** The [Source] interface

    The ten classes implement one abstract base, [Source]; a value of it is
    an object of one of them and a method call dispatches on its class. *)

Inductive Source : Type :=
| OfSNMP (self : SNMPSource)
| OfMgmtSNMP (self : MgmtSNMPSource)
| OfIPMI (self : IPMISource)
| OfProgram (self : ProgramSource)
| OfPushAgent (self : PushAgentSource)
| OfTCP (self : TCPSource)
| OfSpecialAgent (self : SpecialAgentSource)
| OfPiggyback (self : PiggybackSource)
| OfMissingIP (self : MissingIPSource)
| OfMissingSource (self : MissingSourceSource).

Definition source_info (src : Source) : SourceInfo :=
  match src with
  | OfSNMP self => SNMPSource_source_info self
  | OfMgmtSNMP self => MgmtSNMPSource_source_info self
  | OfIPMI self => IPMISource_source_info self
  | OfProgram self => ProgramSource_source_info self
  | OfPushAgent self => PushAgentSource_source_info self
  | OfTCP self => TCPSource_source_info self
  | OfSpecialAgent self => SpecialAgentSource_source_info self
  | OfPiggyback self => PiggybackSource_source_info self
  | OfMissingIP self => MissingIPSource_source_info self
  | OfMissingSource self => MissingSourceSource_source_info self
  end.

Definition fetcher (src : Source) : Fetcher F :=
  match src with
  | OfSNMP self => SNMPSource_fetcher self
  | OfMgmtSNMP self => MgmtSNMPSource_fetcher self
  | OfIPMI self => IPMISource_fetcher self
  | OfProgram self => ProgramSource_fetcher self
  | OfPushAgent self => PushAgentSource_fetcher self
  | OfTCP self => TCPSource_fetcher self
  | OfSpecialAgent self => SpecialAgentSource_fetcher self
  | OfPiggyback self => PiggybackSource_fetcher self
  | OfMissingIP self => MissingIPSource_fetcher self
  | OfMissingSource self => MissingSourceSource_fetcher self
  end.

Definition file_cache
    (src : Source) (simulation : bool) (file_cache_options : FileCacheOptions)
    : FileCache :=
  match src with
  | OfSNMP self => SNMPSource_file_cache self simulation file_cache_options
  | OfMgmtSNMP self => MgmtSNMPSource_file_cache self simulation file_cache_options
  | OfIPMI self => IPMISource_file_cache self simulation file_cache_options
  | OfProgram self => ProgramSource_file_cache self simulation file_cache_options
  | OfPushAgent self => PushAgentSource_file_cache self simulation file_cache_options
  | OfTCP self => TCPSource_file_cache self simulation file_cache_options
  | OfSpecialAgent self => SpecialAgentSource_file_cache self simulation file_cache_options
  | OfPiggyback self => PiggybackSource_file_cache self simulation file_cache_options
  | OfMissingIP self => MissingIPSource_file_cache self simulation file_cache_options
  | OfMissingSource self =>
      MissingSourceSource_file_cache self simulation file_cache_options
  end.

(** *** Methods as computations on the object and the world

    A method runs on the object it is called on and on the world outside
    (the configuration cache, the network).  It may read an attribute of the
    object, assign one, and call out into the world; it hands back its
    result with the object and the world as it leaves them. *)

Definition Method (Obj A : Type) : Type := Obj * W → A * (Obj * W).

Local Instance Method_ret {Obj : Type} : MRet (Method Obj) := λ A a s, (a, s).

Local Instance Method_bind {Obj : Type} : MBind (Method Obj) :=
  λ A B k m s, let '(a, s') := m s in k a s'.

(** [self.name] *)
Definition attr {Obj A : Type} (field : Obj → A) : Method Obj A :=
  λ s, (field s.1, s).

(** [self.name = value] *)
Definition setattr {Obj : Type} (assign : Obj → Obj) : Method Obj unit :=
  λ s, ((), (assign s.1, s.2)).

(** A call that leaves the object alone and works on the world. *)
Definition outside {Obj A : Type} (call : W → A * W) : Method Obj A :=
  λ s, let '(a, w') := call s.2 in (a, (s.1, w')).

(** The methods of the ten classes, statement by statement. *)

Definition SNMPSource_source_info_method : Method SNMPSource SourceInfo :=
  host_name ← attr snmp_host_name;
  ipaddress ← attr snmp_ipaddress;
  mret (mkSourceInfo host_name (Some ipaddress) "snmp" FetcherType.SNMP SourceType.HOST).

Definition SNMPSource_fetcher_method : Method SNMPSource (Fetcher F) :=
  config_cache ← attr snmp_config_cache;
  host_name ← attr snmp_host_name;
  ipaddress ← attr snmp_ipaddress;
  scan_config ← attr snmp_scan_config;
  selected_sections ← attr snmp_selected_sections;
  stored_walk_path ← attr snmp_stored_walk_path;
  walk_cache_path ← attr snmp_walk_cache_path;
  backend_override ← attr snmp_backend_override;
  outside (call_make_snmp_fetcher config_cache host_name ipaddress scan_config
             selected_sections stored_walk_path walk_cache_path SourceType.HOST
             backend_override).

Definition SNMPSource_file_cache_method
    (simulation : bool) (file_cache_options : FileCacheOptions)
    : Method SNMPSource FileCache :=
  dir ← attr snmp_file_cache_path;
  info ← SNMPSource_source_info_method;
  host_name ← attr snmp_host_name;
  max_age ← attr snmp_max_age;
  mret (SNMPFileCache {|
         fc_path_template := os_path_join dir [ident info; "{mode}"; host_name];
         fc_max_age := max_age;
         fc_simulation := simulation;
         fc_use_only_cache := use_only_cache file_cache_options;
         fc_file_cache_mode := file_cache_mode file_cache_options
       |}).

Definition MgmtSNMPSource_source_info_method : Method MgmtSNMPSource SourceInfo :=
  host_name ← attr mgmt_host_name;
  ipaddress ← attr mgmt_ipaddress;
  mret (mkSourceInfo host_name (Some ipaddress) "mgmt_snmp" FetcherType.SNMP SourceType.MANAGEMENT).

Definition MgmtSNMPSource_fetcher_method : Method MgmtSNMPSource (Fetcher F) :=
  config_cache ← attr mgmt_config_cache;
  host_name ← attr mgmt_host_name;
  ipaddress ← attr mgmt_ipaddress;
  scan_config ← attr mgmt_scan_config;
  selected_sections ← attr mgmt_selected_sections;
  stored_walk_path ← attr mgmt_stored_walk_path;
  walk_cache_path ← attr mgmt_walk_cache_path;
  backend_override ← attr mgmt_backend_override;
  outside (call_make_snmp_fetcher config_cache host_name ipaddress scan_config
             selected_sections stored_walk_path walk_cache_path SourceType.MANAGEMENT
             backend_override).

Definition MgmtSNMPSource_file_cache_method
    (simulation : bool) (file_cache_options : FileCacheOptions)
    : Method MgmtSNMPSource FileCache :=
  dir ← attr mgmt_file_cache_path;
  info ← MgmtSNMPSource_source_info_method;
  host_name ← attr mgmt_host_name;
  max_age ← attr mgmt_max_age;
  mret (SNMPFileCache {|
         fc_path_template := os_path_join dir [ident info; "{mode}"; host_name];
         fc_max_age := max_age;
         fc_simulation := simulation;
         fc_use_only_cache := use_only_cache file_cache_options;
         fc_file_cache_mode := file_cache_mode file_cache_options
       |}).

Definition IPMISource_source_info_method : Method IPMISource SourceInfo :=
  host_name ← attr ipmi_host_name;
  ipaddress ← attr ipmi_ipaddress;
  mret (mkSourceInfo host_name (Some ipaddress) "mgmt_ipmi" FetcherType.IPMI
         SourceType.MANAGEMENT).

Definition IPMISource_fetcher_method : Method IPMISource (Fetcher F) :=
  config_cache ← attr ipmi_config_cache;
  host_name ← attr ipmi_host_name;
  ipaddress ← attr ipmi_ipaddress;
  outside (call_make_ipmi_fetcher config_cache host_name ipaddress).

Definition IPMISource_file_cache_method
    (simulation : bool) (file_cache_options : FileCacheOptions)
    : Method IPMISource FileCache :=
  dir ← attr ipmi_file_cache_path;
  info ← IPMISource_source_info_method;
  host_name ← attr ipmi_host_name;
  max_age ← attr ipmi_max_age;
  mret (AgentFileCache {|
         fc_path_template := os_path_join dir [ident info; host_name];
         fc_max_age := max_age;
         fc_simulation := simulation;
         fc_use_only_cache := use_only_cache file_cache_options;
         fc_file_cache_mode := file_cache_mode file_cache_options
       |}).

Definition ProgramSource_source_info_method : Method ProgramSource SourceInfo :=
  host_name ← attr prog_host_name;
  ipaddress ← attr prog_ipaddress;
  mret (mkSourceInfo host_name ipaddress "agent" FetcherType.PROGRAM SourceType.HOST).

Definition ProgramSource_fetcher_method : Method ProgramSource (Fetcher F) :=
  config_cache ← attr prog_config_cache;
  host_name ← attr prog_host_name;
  ipaddress ← attr prog_ipaddress;
  program ← attr prog_program;
  outside (call_make_program_fetcher config_cache host_name ipaddress program None).

Definition ProgramSource_file_cache_method
    (simulation : bool) (file_cache_options : FileCacheOptions)
    : Method ProgramSource FileCache :=
  dir ← attr prog_file_cache_path;
  host_name ← attr prog_host_name;
  max_age ← attr prog_max_age;
  mret (AgentFileCache {|
         fc_path_template := os_path_join dir [host_name];
         fc_max_age := max_age;
         fc_simulation := simulation;
         fc_use_only_cache := use_only_cache file_cache_options;
         fc_file_cache_mode := file_cache_mode file_cache_options
       |}).

Definition PushAgentSource_source_info_method : Method PushAgentSource SourceInfo :=
  host_name ← attr push_host_name;
  ipaddress ← attr push_ipaddress;
  mret (mkSourceInfo host_name ipaddress "push-agent" FetcherType.PUSH_AGENT
         SourceType.HOST).

Definition PushAgentSource_fetcher_method : Method PushAgentSource (Fetcher F) :=
  mret (NoFetcher NO_FETCHER).

Definition PushAgentSource_file_cache_method
    (simulation : bool) (file_cache_options : FileCacheOptions)
    : Method PushAgentSource FileCache :=
  dir ← attr push_file_cache_path;
  info ← PushAgentSource_source_info_method;
  host_name ← attr push_host_name;
  max_age ← (if simulation || use_outdated file_cache_options
               then mret unlimited
               else attr push_max_age);
  mret (AgentFileCache {|
         fc_path_template := os_path_join dir [ident info; host_name; "agent_output"];
         fc_max_age := max_age;
         fc_simulation := simulation;
         fc_use_only_cache := true;
         fc_file_cache_mode := if disabled file_cache_options
           then FileCacheMode.DISABLED
           else FileCacheMode.READ
       |}).

Definition TCPSource_source_info_method : Method TCPSource SourceInfo :=
  host_name ← attr tcp_host_name;
  ipaddress ← attr tcp_ipaddress;
  mret (mkSourceInfo host_name (Some ipaddress) "agent" FetcherType.TCP SourceType.HOST).

Definition TCPSource_fetcher_method : Method TCPSource (Fetcher F) :=
  config_cache ← attr tcp_config_cache;
  host_name ← attr tcp_host_name;
  ipaddress ← attr tcp_ipaddress;
  tls_config ← attr tcp_tls_config;
  outside (call_make_tcp_fetcher config_cache host_name ipaddress tls_config).

Definition TCPSource_file_cache_method
    (simulation : bool) (file_cache_options : FileCacheOptions)
    : Method TCPSource FileCache :=
  dir ← attr tcp_file_cache_path;
  host_name ← attr tcp_host_name;
  max_age ← attr tcp_max_age;
  mret (AgentFileCache {|
         fc_path_template := os_path_join dir [host_name];
         fc_max_age := max_age;
         fc_simulation := simulation;
         fc_use_only_cache := tcp_use_only_cache file_cache_options || use_only_cache file_cache_options;
         fc_file_cache_mode := file_cache_mode file_cache_options
       |}).

Definition SpecialAgentSource_source_info_method : Method SpecialAgentSource SourceInfo :=
  host_name ← attr special_host_name;
  ipaddress ← attr special_ipaddress;
  agent_name ← attr special_agent_name;
  mret (mkSourceInfo host_name ipaddress ("special_" +:+ agent_name)
         FetcherType.SPECIAL_AGENT SourceType.HOST).

Definition SpecialAgentSource_fetcher_method : Method SpecialAgentSource (Fetcher F) :=
  config_cache ← attr special_config_cache;
  cmdline ← attr special_cmdline;
  stdin ← attr special_stdin;
  outside (call_make_special_agent_fetcher config_cache cmdline stdin).

Definition SpecialAgentSource_file_cache_method
    (simulation : bool) (file_cache_options : FileCacheOptions)
    : Method SpecialAgentSource FileCache :=
  dir ← attr special_file_cache_path;
  info ← SpecialAgentSource_source_info_method;
  host_name ← attr special_host_name;
  max_age ← attr special_max_age;
  mret (AgentFileCache {|
         fc_path_template := os_path_join dir [ident info; host_name];
         fc_max_age := max_age;
         fc_simulation := simulation;
         fc_use_only_cache := use_only_cache file_cache_options;
         fc_file_cache_mode := file_cache_mode file_cache_options
       |}).

Definition PiggybackSource_source_info_method : Method PiggybackSource SourceInfo :=
  host_name ← attr piggy_host_name;
  ipaddress ← attr piggy_ipaddress;
  mret (mkSourceInfo host_name ipaddress "piggyback" FetcherType.PIGGYBACK SourceType.HOST).

Definition PiggybackSource_fetcher_method : Method PiggybackSource (Fetcher F) :=
  config_cache ← attr piggy_config_cache;
  host_name ← attr piggy_host_name;
  ipaddress ← attr piggy_ipaddress;
  outside (call_make_piggyback_fetcher config_cache host_name ipaddress).

Definition PiggybackSource_file_cache_method
    (simulation : bool) (file_cache_options : FileCacheOptions)
    : Method PiggybackSource FileCache :=
  mret _NO_CACHE.

Definition MissingIPSource_source_info_method : Method MissingIPSource SourceInfo :=
  host_name ← attr noip_host_name;
  ident ← attr noip_ident;
  mret (mkSourceInfo host_name None ident FetcherType.NONE SourceType.HOST).

Definition MissingIPSource_fetcher_method : Method MissingIPSource (Fetcher F) :=
  mret (NoFetcher MISSING_IP).

Definition MissingIPSource_file_cache_method
    (simulation : bool) (file_cache_options : FileCacheOptions)
    : Method MissingIPSource FileCache :=
  mret _NO_CACHE.

Definition MissingSourceSource_source_info_method : Method MissingSourceSource SourceInfo :=
  host_name ← attr nosrc_host_name;
  ipaddress ← attr nosrc_ipaddress;
  ident ← attr nosrc_ident;
  mret (mkSourceInfo host_name ipaddress ident FetcherType.NONE SourceType.HOST).

Definition MissingSourceSource_fetcher_method : Method MissingSourceSource (Fetcher F) :=
  mret (NoFetcher NO_FETCHER).

Definition MissingSourceSource_file_cache_method
    (simulation : bool) (file_cache_options : FileCacheOptions)
    : Method MissingSourceSource FileCache :=
  mret _NO_CACHE.

(** A method of one class run on a source of that class. *)
Definition on_object {Obj A : Type}
    (wrap : Obj → Source) (m : Method Obj A) (self : Obj) (w : W)
    : A * (Source * W) :=
  let '(a, (self', w')) := m (self, w) in (a, (wrap self', w')).

Definition source_info_call (obj : Source * W) : SourceInfo * (Source * W) :=
  match obj.1 with
  | OfSNMP self => on_object OfSNMP (SNMPSource_source_info_method) self obj.2
  | OfMgmtSNMP self => on_object OfMgmtSNMP (MgmtSNMPSource_source_info_method) self obj.2
  | OfIPMI self => on_object OfIPMI (IPMISource_source_info_method) self obj.2
  | OfProgram self => on_object OfProgram (ProgramSource_source_info_method) self obj.2
  | OfPushAgent self => on_object OfPushAgent (PushAgentSource_source_info_method) self obj.2
  | OfTCP self => on_object OfTCP (TCPSource_source_info_method) self obj.2
  | OfSpecialAgent self => on_object OfSpecialAgent (SpecialAgentSource_source_info_method) self obj.2
  | OfPiggyback self => on_object OfPiggyback (PiggybackSource_source_info_method) self obj.2
  | OfMissingIP self => on_object OfMissingIP (MissingIPSource_source_info_method) self obj.2
  | OfMissingSource self => on_object OfMissingSource (MissingSourceSource_source_info_method) self obj.2
  end.

Definition fetcher_call (obj : Source * W) : Fetcher F * (Source * W) :=
  match obj.1 with
  | OfSNMP self => on_object OfSNMP (SNMPSource_fetcher_method) self obj.2
  | OfMgmtSNMP self => on_object OfMgmtSNMP (MgmtSNMPSource_fetcher_method) self obj.2
  | OfIPMI self => on_object OfIPMI (IPMISource_fetcher_method) self obj.2
  | OfProgram self => on_object OfProgram (ProgramSource_fetcher_method) self obj.2
  | OfPushAgent self => on_object OfPushAgent (PushAgentSource_fetcher_method) self obj.2
  | OfTCP self => on_object OfTCP (TCPSource_fetcher_method) self obj.2
  | OfSpecialAgent self => on_object OfSpecialAgent (SpecialAgentSource_fetcher_method) self obj.2
  | OfPiggyback self => on_object OfPiggyback (PiggybackSource_fetcher_method) self obj.2
  | OfMissingIP self => on_object OfMissingIP (MissingIPSource_fetcher_method) self obj.2
  | OfMissingSource self => on_object OfMissingSource (MissingSourceSource_fetcher_method) self obj.2
  end.

Definition file_cache_call
    (simulation : bool) (file_cache_options : FileCacheOptions) (obj : Source * W) : FileCache * (Source * W) :=
  match obj.1 with
  | OfSNMP self => on_object OfSNMP (SNMPSource_file_cache_method simulation file_cache_options) self obj.2
  | OfMgmtSNMP self => on_object OfMgmtSNMP (MgmtSNMPSource_file_cache_method simulation file_cache_options) self obj.2
  | OfIPMI self => on_object OfIPMI (IPMISource_file_cache_method simulation file_cache_options) self obj.2
  | OfProgram self => on_object OfProgram (ProgramSource_file_cache_method simulation file_cache_options) self obj.2
  | OfPushAgent self => on_object OfPushAgent (PushAgentSource_file_cache_method simulation file_cache_options) self obj.2
  | OfTCP self => on_object OfTCP (TCPSource_file_cache_method simulation file_cache_options) self obj.2
  | OfSpecialAgent self => on_object OfSpecialAgent (SpecialAgentSource_file_cache_method simulation file_cache_options) self obj.2
  | OfPiggyback self => on_object OfPiggyback (PiggybackSource_file_cache_method simulation file_cache_options) self obj.2
  | OfMissingIP self => on_object OfMissingIP (MissingIPSource_file_cache_method simulation file_cache_options) self obj.2
  | OfMissingSource self => on_object OfMissingSource (MissingSourceSource_file_cache_method simulation file_cache_options) self obj.2
  end.

(** A caller holds a source object and the world outside, and calls methods
    in any order: the three methods of the interface, and [fetch] on the
    fetcher the source hands out. *)

Inductive Call : Type :=
| call_source_info
| call_fetcher
| call_file_cache (simulation : bool) (file_cache_options : FileCacheOptions)
| call_fetch.

Inductive Reply : Type :=
| reply_source_info (info : SourceInfo)
| reply_fetcher (f : Fetcher F)
| reply_file_cache (c : FileCache)
| reply_fetch (outcome : FetchError + RawData).

Definition invoke (c : Call) (obj : Source * W) : Reply * (Source * W) :=
  match c with
  | call_source_info =>
      let '(info, obj') := source_info_call obj in (reply_source_info info, obj')
  | call_fetcher =>
      let '(f, obj') := fetcher_call obj in (reply_fetcher f, obj')
  | call_file_cache simulation file_cache_options =>
      let '(cache, obj') := file_cache_call simulation file_cache_options obj in
      (reply_file_cache cache, obj')
  | call_fetch =>
      let '(f, (src, w)) := fetcher_call obj in
      let '(outcome, w') := fetch f w in
      (reply_fetch outcome, (src, w'))
  end.

Fixpoint invoke_all (cs : list Call) (obj : Source * W) : list Reply * (Source * W) :=
  match cs with
  | [] => ([], obj)
  | c :: rest =>
      let '(r, obj') := invoke c obj in
      let '(rs, obj'') := invoke_all rest obj' in
      (r :: rs, obj'')
  end.

(** What [source_info] of a push-agent source would be if it assigned to the
    host name before reporting it. *)
Definition renaming_source_info : Method PushAgentSource SourceInfo :=
  _ ← setattr (λ self,
         mkPushAgentSource (push_host_name self +:+ "'") (push_ipaddress self)
           (push_max_age self) (push_file_cache_path self));
  PushAgentSource_source_info_method.

(** *** The policy table of the specification

    What the specification's table of per-variant policies says about the
    [use_only_cache] flag and about the cache path, written down from its
    words, to be compared with what the classes build. *)

Definition policy_use_only_cache (src : Source) (o : FileCacheOptions) : option bool :=
  match src with
  | OfPushAgent _ => Some true
  | OfTCP _ => Some (use_only_cache o || tcp_use_only_cache o)
  | OfSNMP _ | OfMgmtSNMP _ | OfIPMI _ | OfProgram _ | OfSpecialAgent _ =>
      Some (use_only_cache o)
  | OfPiggyback _ | OfMissingIP _ | OfMissingSource _ => None
  end.

(** [dir // name] is the entry [name] of the directory [dir]. *)
Definition entry (dir name : string) : string := dir +:+ "/" +:+ name.

Infix "//" := entry (at level 40, left associativity).

(** The directory and the components below it that the table asks for. *)
Definition policy_components (src : Source) : option (Path * list string) :=
  let id := ident (source_info src) in
  let host := hostname (source_info src) in
  match src with
  | OfSNMP self => Some (snmp_file_cache_path self, [id; "{mode}"; host])
  | OfMgmtSNMP self => Some (mgmt_file_cache_path self, [id; "{mode}"; host])
  | OfIPMI self => Some (ipmi_file_cache_path self, [id; host])
  | OfSpecialAgent self => Some (special_file_cache_path self, [id; host])
  | OfProgram self => Some (prog_file_cache_path self, [host])
  | OfTCP self => Some (tcp_file_cache_path self, [host])
  | OfPushAgent self => Some (push_file_cache_path self, [id; host; "agent_output"])
  | OfPiggyback _ | OfMissingIP _ | OfMissingSource _ => None
  end.

(** The same as one string, each component an entry of what precedes it. *)
Definition policy_path (src : Source) : option string :=
  let id := ident (source_info src) in
  let host := hostname (source_info src) in
  match src with
  | OfSNMP self => Some (snmp_file_cache_path self // id // "{mode}" // host)
  | OfMgmtSNMP self => Some (mgmt_file_cache_path self // id // "{mode}" // host)
  | OfIPMI self => Some (ipmi_file_cache_path self // id // host)
  | OfSpecialAgent self => Some (special_file_cache_path self // id // host)
  | OfProgram self => Some (prog_file_cache_path self // host)
  | OfTCP self => Some (tcp_file_cache_path self // host)
  | OfPushAgent self => Some (push_file_cache_path self // id // host // "agent_output")
  | OfPiggyback _ | OfMissingIP _ | OfMissingSource _ => None
  end.

(** A cache directory as a [Path] renders it: not empty, no trailing
    separator. *)
Definition plain_dir (dir : string) : bool :=
  negb (is_empty dir) && negb (endswith_sep dir).

(** The names a source is built with are plain path components: the host
    name is relative; that of a push-agent source, which is followed by a
    further component, is not empty and does not end in a separator either;
    the name of a special agent does not end in one. *)
Definition plain_names (src : Source) : bool :=
  match src with
  | OfSNMP self => plain_dir (snmp_file_cache_path self) && negb (startswith_sep (snmp_host_name self))
  | OfMgmtSNMP self => plain_dir (mgmt_file_cache_path self) && negb (startswith_sep (mgmt_host_name self))
  | OfIPMI self => plain_dir (ipmi_file_cache_path self) && negb (startswith_sep (ipmi_host_name self))
  | OfProgram self => plain_dir (prog_file_cache_path self) && negb (startswith_sep (prog_host_name self))
  | OfTCP self => plain_dir (tcp_file_cache_path self) && negb (startswith_sep (tcp_host_name self))
  | OfSpecialAgent self =>
      plain_dir (special_file_cache_path self)
      && negb (startswith_sep (special_host_name self))
      && negb (endswith_sep (special_agent_name self))
  | OfPushAgent self =>
      plain_dir (push_file_cache_path self)
      && negb (startswith_sep (push_host_name self))
      && negb (is_empty (push_host_name self))
      && negb (endswith_sep (push_host_name self))
  | OfPiggyback _ | OfMissingIP _ | OfMissingSource _ => true
  end.

(** *** Options and variants

    [FileCacheOptions] is a named tuple: [_replace] gives a copy with one
    field changed. *)

Definition replace_use_outdated (value : bool) (o : FileCacheOptions) : FileCacheOptions :=
  mkFileCacheOptions (disabled o) value (use_only_cache o) (tcp_use_only_cache o).

Definition replace_tcp_use_only_cache (value : bool) (o : FileCacheOptions)
    : FileCacheOptions :=
  mkFileCacheOptions (disabled o) (use_outdated o) (use_only_cache o) value.

Definition is_push_agent (src : Source) : bool :=
  match src with OfPushAgent _ => true | _ => false end.

Definition is_tcp (src : Source) : bool :=
  match src with OfTCP _ => true | _ => false end.

(** Whether two sources are objects of one class. *)
Definition same_class (src1 src2 : Source) : bool :=
  match src1, src2 with
  | OfSNMP _, OfSNMP _ | OfMgmtSNMP _, OfMgmtSNMP _ | OfIPMI _, OfIPMI _
  | OfProgram _, OfProgram _ | OfPushAgent _, OfPushAgent _ | OfTCP _, OfTCP _
  | OfSpecialAgent _, OfSpecialAgent _ | OfPiggyback _, OfPiggyback _
  | OfMissingIP _, OfMissingIP _ | OfMissingSource _, OfMissingSource _ => true
  | _, _ => false
  end.

(** The [file_cache_path] a source was built with, if it takes one. *)
Definition cache_directory (src : Source) : option Path :=
  match src with
  | OfSNMP self => Some (snmp_file_cache_path self)
  | OfMgmtSNMP self => Some (mgmt_file_cache_path self)
  | OfIPMI self => Some (ipmi_file_cache_path self)
  | OfProgram self => Some (prog_file_cache_path self)
  | OfPushAgent self => Some (push_file_cache_path self)
  | OfTCP self => Some (tcp_file_cache_path self)
  | OfSpecialAgent self => Some (special_file_cache_path self)
  | OfPiggyback _ | OfMissingIP _ | OfMissingSource _ => None
  end.

(** ** Properties of the sources *)

(** *** Path components *)

Lemma is_empty_app (a b : string) : is_empty (a +:+ b) = is_empty a && is_empty b.
Proof. by destruct a. Qed.

Lemma endswith_sep_cons (c : ascii) (s : string) :
  is_empty s = false → endswith_sep (String c s) = endswith_sep s.
Proof. by destruct s. Qed.

Lemma endswith_sep_app (a b : string) :
  is_empty b = false → endswith_sep (a +:+ b) = endswith_sep b.
Proof.
  intros Hb. induction a as [|c a IH]; [done|].
  change (String c a +:+ b) with (String c (a +:+ b)).
  rewrite endswith_sep_cons; [done|].
  by rewrite is_empty_app, Hb, andb_false_r.
Qed.

Lemma join_component_plain (path b : string) :
  is_empty path = false → endswith_sep path = false → startswith_sep b = false →
  join_component path b = path // b.
Proof. intros Hne Hend Hb. unfold join_component. by rewrite Hb, Hne, Hend. Qed.

Lemma entry_not_empty (dir name : string) : is_empty (dir // name) = false.
Proof. unfold entry. rewrite is_empty_app. by destruct dir. Qed.

Lemma entry_endswith_sep (dir name : string) :
  is_empty name = false → endswith_sep (dir // name) = endswith_sep name.
Proof.
  intros Hn. unfold entry. rewrite endswith_sep_app; [by destruct name|done].
Qed.

Lemma plain_dir_spec (dir : string) :
  plain_dir dir = true → is_empty dir = false ∧ endswith_sep dir = false.
Proof.
  unfold plain_dir. intros [H1 H2]%andb_prop.
  by apply negb_true_iff in H1, H2.
Qed.

(** Joining a plain directory with relative components, none of which but
    the last is empty or ends in a separator, nests them. *)
Lemma join_two (dir a b : string) :
  plain_dir dir = true →
  startswith_sep a = false → is_empty a = false → endswith_sep a = false →
  startswith_sep b = false →
  os_path_join dir [a; b] = dir // a // b.
Proof.
  intros [Hne Hend]%plain_dir_spec Ha1 Ha2 Ha3 Hb. unfold os_path_join. simpl.
  rewrite (join_component_plain dir a) by done.
  rewrite join_component_plain; [done|apply entry_not_empty| |done].
  by rewrite entry_endswith_sep.
Qed.

Lemma join_three (dir a b c : string) :
  plain_dir dir = true →
  startswith_sep a = false → is_empty a = false → endswith_sep a = false →
  startswith_sep b = false → is_empty b = false → endswith_sep b = false →
  startswith_sep c = false →
  os_path_join dir [a; b; c] = dir // a // b // c.
Proof.
  intros Hdir Ha1 Ha2 Ha3 Hb1 Hb2 Hb3 Hc.
  pose proof (join_two dir a b Hdir Ha1 Ha2 Ha3 Hb1) as H2.
  unfold os_path_join in *. simpl in *. rewrite H2.
  rewrite join_component_plain; [done|apply entry_not_empty| |done].
  by rewrite entry_endswith_sep.
Qed.

Example join_nests :
  os_path_join "/cache" ["snmp"; "{mode}"; "zeus"] = "/cache/snmp/{mode}/zeus".
Proof. reflexivity. Qed.

Example join_restarts_at_absolute_component :
  os_path_join "/cache" ["snmp"; "{mode}"; "/zeus"] = "/zeus".
Proof. reflexivity. Qed.

Example join_does_not_double_separator :
  os_path_join "/cache/" ["agent"; ""; "zeus"] = "/cache/agent/zeus".
Proof. reflexivity. Qed.

Lemma special_ident_endswith_sep (name : string) :
  endswith_sep ("special_" +:+ name) = endswith_sep name.
Proof.
  destruct name as [|c name]; [done|].
  by rewrite endswith_sep_app.
Qed.

(** *** File-cache policies *)

(** C1: whatever the simulation flag and the options, the cache of a
    push-agent source is an agent file cache whose mode is DISABLED when
    caching is disabled globally and READ otherwise; it is at most READ,
    never READ_WRITE, and never permits a write. *)
Theorem push_agent_mode_at_most_read
    (self : PushAgentSource) (simulation : bool) (o : FileCacheOptions) :
  ∃ m,
    cache_mode (PushAgentSource_file_cache self simulation o) = Some m
    ∧ m = (if disabled o then FileCacheMode.DISABLED else FileCacheMode.READ)
    ∧ FileCacheMode.le m FileCacheMode.READ
    ∧ m ≠ FileCacheMode.READ_WRITE
    ∧ FileCacheMode.permits_write m = false.
Proof.
  eexists. split; [reflexivity|].
  unfold FileCacheMode.le. destruct (disabled o); simpl; repeat split; auto; lia.
Qed.

(** C2, as amended: the max-age of the cache of a push-agent source is
    "unlimited" whenever the simulation flag or [use_outdated] is set, and
    the configured max-age of the source otherwise; for a source configured
    with a bounded max-age it is "unlimited" exactly when one of the two is
    set. *)
Theorem push_agent_max_age_widened :
  (∀ (self : PushAgentSource) simulation o,
     cache_max_age (PushAgentSource_file_cache self simulation o)
     = Some (if simulation || use_outdated o then unlimited else push_max_age self))
  ∧ (∀ host ip seconds dir simulation o,
       cache_max_age
         (PushAgentSource_file_cache
            (mkPushAgentSource host ip (bounded seconds) dir) simulation o)
       = Some unlimited
       ↔ simulation = true ∨ use_outdated o = true).
Proof.
  split; [done|].
  intros host ip seconds dir simulation o.
  unfold cache_max_age, PushAgentSource_file_cache. simpl.
  destruct simulation, (use_outdated o); simpl; split; intros H;
    try done; try (by left); try (by right); by destruct H.
Qed.

(** C3: the [use_only_cache] flag of the cache a source builds is the one
    the policy table gives for its variant: always set for a push-agent
    source, the global or the TCP-specific option for a TCP source, the
    global option alone for the SNMP, IPMI, program and special-agent
    sources (the no-op cache of the remaining variants has no such flag). *)
Theorem use_only_cache_follows_policy
    (src : Source) (simulation : bool) (o : FileCacheOptions) :
  cache_use_only_cache (file_cache src simulation o) = policy_use_only_cache src o.
Proof.
  destruct src; simpl; try reflexivity.
  by rewrite orb_comm.
Qed.

(** C4: the path of the file cache of a source is built from its cache
    directory, its ident where the policy table asks for it, the mode
    segment for SNMP, and its host name, joined in this order as the table
    gives them for its variant, and from nothing else; for a source built
    with plain names this path is [base/ident/{mode}/host] for the SNMP and
    management-SNMP sources, [base/ident/host] for the IPMI and special-agent
    sources, [base/host] for the program and TCP sources and
    [base/ident/host/agent_output] for the push-agent source. *)
Theorem cache_path_follows_policy
    (src : Source) (simulation : bool) (o : FileCacheOptions) :
  cache_path (file_cache src simulation o)
  = (λ '(dir, components), os_path_join dir components) <$> policy_components src
  ∧ (plain_names src = true →
     cache_path (file_cache src simulation o) = policy_path src).
Proof.
  split; [by destruct src|].
  destruct src as [self|self|self|self|self|self|self|self|self|self];
    intros Hplain; try reflexivity;
    unfold cache_path, policy_path; cbn -[os_path_join entry String.append];
    f_equal; cbn in Hplain;
    repeat match goal with
           | H : _ && _ = true |- _ => apply andb_prop in H as [? ?]
           | H : negb _ = true |- _ => apply negb_true_iff in H
           end.
  - by apply join_three.
  - by apply join_three.
  - by apply join_two.
  - apply plain_dir_spec in H as [? ?]. by apply join_component_plain.
  - by apply join_three.
  - apply plain_dir_spec in H as [? ?]. by apply join_component_plain.
  - apply join_two; try done. by rewrite special_ident_endswith_sep.
Qed.

(** C5: whatever the simulation flag and the options, the piggyback,
    missing-IP and missing-source variants hand out the no-op cache; every
    read on it misses, and every write is discarded and leaves the persisted
    state as it was. *)
Theorem placeholder_sources_use_no_op_cache
    (piggyback : PiggybackSource) (missing_ip : MissingIPSource)
    (missing_source : MissingSourceSource)
    (simulation : bool) (o : FileCacheOptions) :
  Forall
    (λ c, c = NoCache
          ∧ (∀ now st, FileCache_read c now st = None)
          ∧ (∀ now data st, FileCache_write c now data st = st))
    [ file_cache (OfPiggyback piggyback) simulation o;
      file_cache (OfMissingIP missing_ip) simulation o;
      file_cache (OfMissingSource missing_source) simulation o ].
Proof. repeat constructor. Qed.

(** *** Fetchers *)

(** C6: the fetcher of a push-agent source and of a missing-source source is
    the no-fetcher with reason NO_FETCHER, that of a missing-IP source the
    no-fetcher with reason MISSING_IP; fetching with any of them fails with
    exactly that reason and leaves the world outside untouched. *)
Theorem placeholder_fetchers_fail_at_once
    (push : PushAgentSource) (missing_ip : MissingIPSource)
    (missing_source : MissingSourceSource) (w : W) :
  (fetcher (OfPushAgent push) = NoFetcher NO_FETCHER
   ∧ fetch (fetcher (OfPushAgent push)) w = (inl (NoFetcherFailure NO_FETCHER), w))
  ∧ (fetcher (OfMissingSource missing_source) = NoFetcher NO_FETCHER
     ∧ fetch (fetcher (OfMissingSource missing_source)) w
       = (inl (NoFetcherFailure NO_FETCHER), w))
  ∧ (fetcher (OfMissingIP missing_ip) = NoFetcher MISSING_IP
     ∧ fetch (fetcher (OfMissingIP missing_ip)) w
       = (inl (NoFetcherFailure MISSING_IP), w)).
Proof. repeat split. Qed.

(** *** Stability under repeated calls *)

(** The three methods read attributes and, in [fetcher], call a factory:
    none assigns, so each leaves the object as it is; [source_info] and
    [file_cache] leave the world alone as well and compute what the plain
    functions say. *)
Lemma source_info_call_pure (src : Source) (w : W) :
  source_info_call (src, w) = (source_info src, (src, w)).
Proof. by destruct src. Qed.

Lemma file_cache_call_pure (src : Source) (w : W) simulation o :
  file_cache_call simulation o (src, w) = (file_cache src simulation o, (src, w)).
Proof.
  destruct src as [self|self|self|self|self|self|self|self|self|self];
    try reflexivity.
  unfold file_cache_call, on_object, PushAgentSource_file_cache_method, mbind, Method_bind. simpl.
  unfold PushAgentSource_file_cache. simpl.
  by destruct (simulation || use_outdated o).
Qed.

(** Running a [fetcher] method down to the call it makes. *)
Ltac run_fetcher_method :=
  cbv [fetcher_call on_object
       SNMPSource_fetcher_method MgmtSNMPSource_fetcher_method
       IPMISource_fetcher_method ProgramSource_fetcher_method
       PushAgentSource_fetcher_method TCPSource_fetcher_method
       SpecialAgentSource_fetcher_method PiggybackSource_fetcher_method
       MissingIPSource_fetcher_method MissingSourceSource_fetcher_method
       mbind Method_bind mret Method_ret attr outside];
  cbn [fst snd].

Lemma fetcher_call_keeps_object (src : Source) (w : W) :
  (fetcher_call (src, w)).2.1 = src.
Proof.
  destruct src as [self|self|self|self|self|self|self|self|self|self];
    run_fetcher_method; cbv [fst snd]; try reflexivity;
    match goal with |- context [let '(_, _) := ?call in _] => by destruct call end.
Qed.

(** Two runs of one factory call, with [H] saying that they hand out the
    same fetcher. *)
Ltac same_reply H :=
  match type of H with
  | (?call1).1 = (?call2).1 =>
      revert H; destruct call1, call2; simpl; intros; by subst
  end.

Lemma fetcher_call_settled (src : Source) (w w' : W) :
  replies_settled calls →
  (fetcher_call (src, w)).1 = (fetcher_call (src, w')).1.
Proof.
  intros (Hsnmp & Hipmi & Hprogram & Htcp & Hspecial & Hpiggyback).
  destruct src as [self|self|self|self|self|self|self|self|self|self];
    run_fetcher_method; try reflexivity.
  - specialize (Hsnmp (snmp_config_cache self) (snmp_host_name self)
                  (snmp_ipaddress self) (snmp_scan_config self)
                  (snmp_selected_sections self) (snmp_stored_walk_path self)
                  (snmp_walk_cache_path self) SourceType.HOST
                  (snmp_backend_override self) w w').
    same_reply Hsnmp.
  - specialize (Hsnmp (mgmt_config_cache self) (mgmt_host_name self)
                  (mgmt_ipaddress self) (mgmt_scan_config self)
                  (mgmt_selected_sections self) (mgmt_stored_walk_path self)
                  (mgmt_walk_cache_path self) SourceType.MANAGEMENT
                  (mgmt_backend_override self) w w').
    same_reply Hsnmp.
  - specialize (Hipmi (ipmi_config_cache self) (ipmi_host_name self)
                  (ipmi_ipaddress self) w w').
    same_reply Hipmi.
  - specialize (Hprogram (prog_config_cache self) (prog_host_name self)
                  (prog_ipaddress self) (prog_program self) None w w').
    same_reply Hprogram.
  - specialize (Htcp (tcp_config_cache self) (tcp_host_name self)
                  (tcp_ipaddress self) (tcp_tls_config self) w w').
    same_reply Htcp.
  - specialize (Hspecial (special_config_cache self) (special_cmdline self)
                  (special_stdin self) w w').
    same_reply Hspecial.
  - specialize (Hpiggyback (piggy_config_cache self) (piggy_host_name self)
                  (piggy_ipaddress self) w w').
    same_reply Hpiggyback.
Qed.

Lemma invoke_keeps_object (c : Call) (src : Source) (w : W) :
  (invoke c (src, w)).2.1 = src.
Proof.
  destruct c; simpl.
  - by rewrite source_info_call_pure.
  - pose proof (fetcher_call_keeps_object src w) as H.
    by destruct (fetcher_call (src, w)) as [f [src' w']].
  - by rewrite file_cache_call_pure.
  - pose proof (fetcher_call_keeps_object src w) as H.
    destruct (fetcher_call (src, w)) as [f [src' w']].
    by destruct (fetch f w').
Qed.

Lemma invoke_all_keeps_object (cs : list Call) (src : Source) (w : W) :
  (invoke_all cs (src, w)).2.1 = src.
Proof.
  revert w. induction cs as [|c cs IH]; intros w; [done|].
  cbn [invoke_all]. pose proof (invoke_keeps_object c src w) as Hc.
  destruct (invoke c (src, w)) as [r [src' w']]. simpl in Hc. subst src'.
  specialize (IH w'). destruct (invoke_all cs (src, w')) as [rs [src'' w'']].
  exact IH.
Qed.

(** A method that assigned would not go unnoticed: the second reply of
    [renaming_source_info] differs from the first. *)
Example assignment_shows (self : PushAgentSource) (w : W) :
  let '(first, obj) := renaming_source_info (self, w) in
  let '(second, _) := renaming_source_info obj in
  hostname first ≠ hostname second.
Proof.
  simpl. intros H. apply (f_equal String.length) in H.
  assert (∀ a b, String.length (a +:+ b) = String.length a + String.length b) as Hlen.
  { intros a b. induction a as [|x a IH]; [done|].
    change (String x a +:+ b) with (String x (a +:+ b)). simpl. by rewrite IH. }
  rewrite !Hlen in H. simpl in H. lia.
Qed.

(** C7: [source_info] changes neither the object nor the world.  After any
    sequence of calls on a source, fetches with whatever outcome and calls
    into the configuration cache that change the world among them,
    [source_info] and [file_cache] with given simulation flag and options
    reply what they reply on the fresh object, the same identity and the same
    cache with its path and mode, and change nothing; [fetcher] leaves the
    object as it is, and replies with the same fetcher as on the fresh object
    provided the factories of the configuration cache answer one call the
    same way in every world. *)
Theorem source_methods_are_stable (src : Source) (w : W) (history : list Call) :
  let later := (invoke_all history (src, w)).2 in
  invoke call_source_info (src, w) = (reply_source_info (source_info src), (src, w))
  ∧ invoke call_source_info later = (reply_source_info (source_info src), later)
  ∧ (∀ simulation o,
       invoke (call_file_cache simulation o) later
       = (reply_file_cache (file_cache src simulation o), later))
  ∧ (invoke call_fetcher later).2.1 = src
  ∧ (replies_settled calls →
     (invoke call_fetcher later).1 = (invoke call_fetcher (src, w)).1).
Proof.
  simpl. pose proof (invoke_all_keeps_object history src w) as Hobj.
  destruct (invoke_all history (src, w)) as [rs [src' w']].
  simpl in Hobj. subst src'. simpl.
  rewrite !source_info_call_pure. repeat split.
  - intros simulation o. by rewrite file_cache_call_pure.
  - pose proof (fetcher_call_keeps_object src w') as H.
    by destruct (fetcher_call (src, w')) as [f [src'' w'']].
  - intros Hsettled. pose proof (fetcher_call_settled src w' w Hsettled) as H.
    destruct (fetcher_call (src, w')) as [f [src1 w1]].
    destruct (fetcher_call (src, w)) as [f' [src2 w2]]. simpl in *. by subst.
Qed.


(** *** Further properties of the file caches *)

Lemma app_cons (c : ascii) (a b : string) : String c a +:+ b = String c (a +:+ b).
Proof. reflexivity. Qed.

Lemma app_assoc (a b c : string) : (a +:+ b) +:+ c = a +:+ (b +:+ c).
Proof. induction a as [|x a IH]; [done|]. by rewrite !app_cons, IH. Qed.

Lemma app_length (a b : string) :
  String.length (a +:+ b) = String.length a + String.length b.
Proof. induction a as [|x a IH]; [done|]. rewrite app_cons. simpl. by rewrite IH. Qed.

Lemma app_cancel_r (a b c : string) : a +:+ c = b +:+ c → a = b.
Proof.
  revert b. induction a as [|x a IH]; intros [|y b] H; [done|..].
  - apply (f_equal String.length) in H. rewrite app_cons in H. simpl in H.
    rewrite !app_length in H. simpl in H. lia.
  - apply (f_equal String.length) in H. rewrite app_cons in H. simpl in H.
    rewrite !app_length in H. simpl in H. lia.
  - rewrite !app_cons in H. injection H as -> H. f_equal. by apply IH.
Qed.

Lemma entry_inj (dir a b : string) : dir // a = dir // b → a = b.
Proof. unfold entry. by intros H%String.app_inj%String.app_inj. Qed.

Lemma join_absolute (path b : string) :
  startswith_sep b = true → join_component path b = b.
Proof. intros Hb. unfold join_component. by rewrite Hb. Qed.

Lemma join_component_below (dir rest b : string) :
  startswith_sep b = false → ∃ rest', join_component (dir +:+ rest) b = dir +:+ rest'.
Proof.
  intros Hb. unfold join_component. rewrite Hb.
  destruct (is_empty (dir +:+ rest) || endswith_sep (dir +:+ rest));
    rewrite app_assoc; by eexists.
Qed.

(** Joining relative components never leaves the directory joined to. *)
Lemma join_below (components : list string) (dir rest : string) :
  Forall (λ b, startswith_sep b = false) components →
  ∃ rest', fold_left join_component components (dir +:+ rest) = dir +:+ rest'.
Proof.
  revert rest. induction components as [|b components IH]; intros rest Hrel.
  - by eexists.
  - apply Forall_cons in Hrel as [Hb Hrel]. simpl.
    destruct (join_component_below dir rest b Hb) as [rest' ->]. by apply IH.
Qed.

(** The path of the cache of a source built with plain names, by variant. *)
Lemma plain_cache_path (src : Source) (simulation : bool) (o : FileCacheOptions) :
  plain_names src = true →
  cache_path (file_cache src simulation o) = policy_path src.
Proof.
  destruct src as [self|self|self|self|self|self|self|self|self|self];
    intros Hplain; try reflexivity;
    unfold cache_path, policy_path; cbn -[os_path_join entry String.append];
    f_equal; cbn in Hplain;
    repeat match goal with
           | H : _ && _ = true |- _ => apply andb_prop in H as [? ?]
           | H : negb _ = true |- _ => apply negb_true_iff in H
           end;
    try (by apply join_three); try (by apply join_two);
    try (apply plain_dir_spec in H as [? ?]; by apply join_component_plain).
  apply join_two; try done. by rewrite special_ident_endswith_sep.
Qed.

(** The simulation flag is recorded in the cache and decides nothing else:
    path, mode and [use_only_cache] are the same with and without it, and so
    is the max-age of every source but the push-agent one. *)
Theorem simulation_only_recorded
    (src : Source) (simulation simulation' : bool) (o : FileCacheOptions) :
  fc_simulation <$> cache_args (file_cache src simulation o)
  = (λ _, simulation) <$> cache_directory src
  ∧ cache_path (file_cache src simulation o) = cache_path (file_cache src simulation' o)
  ∧ cache_mode (file_cache src simulation o) = cache_mode (file_cache src simulation' o)
  ∧ cache_use_only_cache (file_cache src simulation o)
    = cache_use_only_cache (file_cache src simulation' o)
  ∧ (is_push_agent src = false →
     cache_max_age (file_cache src simulation o)
     = cache_max_age (file_cache src simulation' o)).
Proof. by destruct src. Qed.

(** Only the cache of a push-agent source depends on [use_outdated]. *)
Theorem use_outdated_matters_to_push_agent_only
    (src : Source) (simulation value : bool) (o : FileCacheOptions) :
  is_push_agent src = false →
  file_cache src simulation (replace_use_outdated value o) = file_cache src simulation o.
Proof. by destruct src. Qed.

(** Only the cache of a TCP source depends on [tcp_use_only_cache]. *)
Theorem tcp_use_only_cache_matters_to_tcp_only
    (src : Source) (simulation value : bool) (o : FileCacheOptions) :
  is_tcp src = false →
  file_cache src simulation (replace_tcp_use_only_cache value o)
  = file_cache src simulation o.
Proof. by destruct src. Qed.

(** With a relative host name the cache path starts with the cache directory
    of the source, whatever the directory, the host name and the name of a
    special agent otherwise look like. *)
Theorem cache_path_below_directory
    (src : Source) (simulation : bool) (o : FileCacheOptions) (dir : Path) :
  startswith_sep (hostname (source_info src)) = false →
  cache_directory src = Some dir →
  ∃ rest, cache_path (file_cache src simulation o) = Some (dir +:+ rest).
Proof.
  intros Hhost Hdir.
  assert (∀ components,
            Forall (λ b, startswith_sep b = false) components →
            ∃ rest, Some (os_path_join dir components) = Some (dir +:+ rest))
    as Hjoin.
  { intros components Hrel. unfold os_path_join.
    destruct (join_below components dir "" Hrel) as [rest Hrest].
    exists rest. f_equal. rewrite <- Hrest. f_equal.
    clear. induction dir as [|c dir IH]; [done|]. by rewrite app_cons, <- IH. }
  destruct src; simplify_eq/=; apply Hjoin; repeat constructor; done.
Qed.

(** An absolute host name takes the place of the cache directory: the cache
    path is then the host name itself, followed by [agent_output] for a
    push-agent source. *)
Theorem absolute_host_name_replaces_directory
    (src : Source) (simulation : bool) (o : FileCacheOptions) :
  startswith_sep (hostname (source_info src)) = true →
  cache_path (file_cache src simulation o)
  = (λ _, if is_push_agent src
          then join_component (hostname (source_info src)) "agent_output"
          else hostname (source_info src))
    <$> cache_directory src.
Proof.
  intros Hhost.
  destruct src; try reflexivity;
    unfold cache_path; cbn -[join_component] in *;
    by rewrite (join_absolute _ _ Hhost).
Qed.

(** Two sources of one class, built with plain names, one cache directory
    and one ident, address one cache path only if they are built for one
    host name. *)
Theorem cache_path_tells_hosts_apart
    (src1 src2 : Source) (simulation1 simulation2 : bool) (o1 o2 : FileCacheOptions) :
  same_class src1 src2 = true →
  plain_names src1 = true → plain_names src2 = true →
  cache_directory src1 = cache_directory src2 →
  ident (source_info src1) = ident (source_info src2) →
  is_Some (cache_path (file_cache src1 simulation1 o1)) →
  cache_path (file_cache src1 simulation1 o1)
  = cache_path (file_cache src2 simulation2 o2) →
  hostname (source_info src1) = hostname (source_info src2).
Proof.
  intros Hclass Hp1 Hp2 Hdir Hident Hsome.
  rewrite (plain_cache_path src1) by done. rewrite (plain_cache_path src2) by done.
  destruct src1, src2; try discriminate Hclass; simpl in *;
    try (by destruct Hsome);
    injection Hdir as Hdir; rewrite ?Hdir, ?Hident;
    intros [= Hpath]; try (by apply entry_inj in Hpath).
  unfold entry at 1 3 in Hpath. apply app_cancel_r in Hpath.
  by apply entry_inj in Hpath.
Qed.

(** Built with plain names and one cache directory, the SNMP source of a
    host and the management SNMP source of any host address different cache
    paths. *)
Theorem host_and_management_snmp_caches_apart
    (host_source : SNMPSource) (mgmt_source : MgmtSNMPSource)
    (simulation1 simulation2 : bool) (o1 o2 : FileCacheOptions) :
  plain_names (OfSNMP host_source) = true →
  plain_names (OfMgmtSNMP mgmt_source) = true →
  snmp_file_cache_path host_source = mgmt_file_cache_path mgmt_source →
  cache_path (file_cache (OfSNMP host_source) simulation1 o1)
  ≠ cache_path (file_cache (OfMgmtSNMP mgmt_source) simulation2 o2).
Proof.
  intros Hp1 Hp2 Hdir.
  rewrite (plain_cache_path (OfSNMP host_source)) by done.
  rewrite (plain_cache_path (OfMgmtSNMP mgmt_source)) by done.
  simpl. rewrite Hdir. intros [= Hpath]. unfold entry in Hpath.
  rewrite !app_assoc in Hpath. apply String.app_inj in Hpath.
  cbv [String.append] in Hpath. discriminate Hpath.
Qed.

(** The global [use_only_cache] option binds every source: once it is set,
    each cache a source builds has the flag set, whatever the other
    options. *)
Theorem global_use_only_cache_binds_all
    (src : Source) (simulation : bool) (o : FileCacheOptions) :
  use_only_cache o = true →
  cache_use_only_cache (file_cache src simulation o)
  = (λ _, true) <$> cache_directory src.
Proof.
  intros Hglobal. destruct src; simpl; try reflexivity;
    unfold cache_use_only_cache; simpl; rewrite Hglobal; f_equal.
  apply orb_true_r.
Qed.

(** The class of the cache goes with the fetcher type that [source_info]
    reports: an SNMP file cache exactly for the fetcher type SNMP, the no-op
    cache exactly for the fetcher types NONE and PIGGYBACK. *)
Theorem cache_class_follows_fetcher_type
    (src : Source) (simulation : bool) (o : FileCacheOptions) :
  (fetcher_type (source_info src) = FetcherType.SNMP
   ↔ ∃ args, file_cache src simulation o = SNMPFileCache args)
  ∧ (fetcher_type (source_info src) = FetcherType.NONE
     ∨ fetcher_type (source_info src) = FetcherType.PIGGYBACK
     ↔ file_cache src simulation o = NoCache).
Proof.
  destruct src; simpl; (split; split);
    try (intros [args [=]]); try (intros [[=]|[=]]); try (intros [=]);
    try (intros _); eauto.
Qed.

(** *** Further properties of the identities *)

(** A source whose fetcher type is NONE is a placeholder: its fetcher is the
    no-fetcher and its cache the no-op cache. *)
Theorem fetcher_type_none_is_placeholder
    (src : Source) (simulation : bool) (o : FileCacheOptions) :
  fetcher_type (source_info src) = FetcherType.NONE →
  (∃ canned, fetcher src = NoFetcher canned)
  ∧ file_cache src simulation o = NoCache.
Proof. destruct src; try discriminate; intros _; split; try done; by eexists. Qed.

(** A source of type MANAGEMENT reports one of the two management idents
    and always an address. *)
Theorem management_sources
    (src : Source) :
  source_type (source_info src) = SourceType.MANAGEMENT →
  (ident (source_info src) = "mgmt_snmp" ∨ ident (source_info src) = "mgmt_ipmi")
  ∧ is_Some (ipaddress (source_info src)).
Proof. destruct src; try discriminate; intros _; split; eauto. Qed.

End Sources.

(** ** Properties of the SNMP acquisition *)

(** The expectations of [test_get_single_oid], of
    [test_get_single_oid_not_existing] and of
    [test_get_simple_snmp_table_bulkwalk]. *)
Example test_get_single_oid :
  (get_single_oid snmpsim_backend snmpsim_config ".1.3.6.1.2.1.1.1.0" cleared).1
  = inr (Some "Linux zeus 4.8.6.5-smp #2 SMP Sun Nov 13 14:58:11 CDT 2016 i686").
Proof. reflexivity. Qed.

Example test_get_single_oid_not_existing :
  (get_single_oid snmpsim_backend snmpsim_config ".1.3.100.200.300.400" cleared).1
  = inr None.
Proof. reflexivity. Qed.

Example test_get_simple_snmp_table :
  (get_snmp_table snmpsim_backend snmpsim_config
     (".1.3.6.1.2.1.1", ["1.0"; "2.0"; "5.0"]) cleared).1
  = inr [[ "Linux zeus 4.8.6.5-smp #2 SMP Sun Nov 13 14:58:11 CDT 2016 i686";
           ".1.3.6.1.4.1.8072.3.2.10"; "new system name" ]].
Proof. reflexivity. Qed.

(** C8: whatever the host configuration, the backend and the state,
    [get_single_oid] on an OID without a leading dot fails with the format
    error and hands the state back as it received it: nothing is sent and
    nothing is cached. *)
Theorem get_single_oid_rejects_unqualified_oid
    (backend : SNMPBackend) (snmp_config : SNMPHostConfig) (oid : OID)
    (st : SNMPState) :
  startswith_dot oid = false →
  ∃ message,
    get_single_oid backend snmp_config oid st = (inl (MKGeneralException message), st).
Proof.
  intros Hdot. unfold get_single_oid. rewrite Hdot. simpl. by eexists.
Qed.


(** ** Properties of the node-conditions check *)

Section NodeConditionsCheck.

Context {State : Type} {runtime : PluginRuntime State}.
Context {constructor : ResultConstructor State}.

Implicit Types (params : gmap string Z) (section : NodeConditions).


Lemma absent_condition_fails section name :
  (name, None) ∈ section → forallb (λ item, passes item.2) section = false.
Proof.
  induction section as [|item rest IH]; intros Hin.
  - by apply not_elem_of_nil in Hin.
  - apply elem_of_cons in Hin as [<-|Hin]; simpl; [done|].
    rewrite IH by done. apply andb_false_r.
Qed.

Lemma no_line_for_absent_condition section :
  mapM summary_line section = None → ∃ name, (name, None) ∈ section.
Proof.
  induction section as [|[name [c|]] rest IH]; simpl; intros Hnone.
  - done.
  - destruct (mapM summary_line rest) eqn:Hrest; [done|].
    destruct IH as [name' Hin]; [done|]. exists name'. by right.
  - exists name. by left.
Qed.

(** What [check_each] yields, entry by entry, and what ends it. *)
Lemma check_each_unfold params name c rest :
  check_each params ((name, Some c) :: rest)
  = if is_ok c then
      ((mkResult State_OK (upper name +:+ ": " +:+ status c)
          ((upper name +:+ ": " +:+ status c)
           +:+ " (" +:+ reason c +:+ ": " +:+ detail c +:+ ")")
        :: (check_each params rest).1), (check_each params rest).2)
    else
      match params !! name with
      | None => ([], Some (KeyError name))
      | Some n =>
          match State_of_int n with
          | None => ([], Some (ValueError n))
          | Some st =>
              ((mkResult st
                  ((upper name +:+ ": " +:+ status c)
                   +:+ " (" +:+ reason c +:+ ": " +:+ detail c +:+ ")")
                  ((upper name +:+ ": " +:+ status c)
                   +:+ " (" +:+ reason c +:+ ": " +:+ detail c +:+ ")")
                :: (check_each params rest).1), (check_each params rest).2)
          end
      end.
Proof.
  simpl. destruct (is_ok c); simpl.
  - by destruct (check_each params rest).
  - destruct (params !! name) as [n|]; [|done].
    destruct (State_of_int n); [|done]. by destruct (check_each params rest).
Qed.

Lemma check_each_length params section :
  length (check_each params section).1 ≤ length section
  ∧ ((check_each params section).2 = None →
     length (check_each params section).1 = length section).
Proof.
  induction section as [|[name [c|]] rest [IH1 IH2]].
  - by split.
  - rewrite check_each_unfold.
    repeat case_match; simpl; split; try done; try lia; intros Hnone; f_equal; auto.
  - simpl. split; [lia|done].
Qed.


(** A section with a condition the node does not report never gets through
    the check: it ends in an exception. *)
Theorem absent_condition_ends_in_exception params section name :
  (name, None) ∈ section →
  ∃ results e, check params section = (results, Some e).
Proof.
  intros Hin. unfold check. rewrite (absent_condition_fails section name Hin).
  induction section as [|[name' [c|]] rest IH].
  - by apply not_elem_of_nil in Hin.
  - apply elem_of_cons in Hin as [[=]|Hin].
    destruct (IH Hin) as (results & e & Heach).
    rewrite check_each_unfold, Heach. simpl.
    repeat case_match; by do 2 eexists.
  - by do 2 eexists.
Qed.

(** The check yields at most one result per condition, or the one summary
    result; when it ends normally it yields exactly one result when all
    conditions pass and exactly one per condition otherwise. *)
Theorem result_count params section :
  length (check params section).1 ≤ Nat.max 1 (length section)
  ∧ ((check params section).2 = None →
     length (check params section).1
     = if forallb (λ item, passes item.2) section then 1 else length section).
Proof.
  unfold check. destruct (forallb _ section) eqn:Hall.
  - destruct (mapM summary_line section); simpl; split; try done; lia.
  - destruct (check_each_length params section) as [Hle Heq]. split; [lia|done].
Qed.

(** Every result the check yields, also before an exception, has state OK
    or the state the parameters give for a condition of the section that
    does not pass. *)
Theorem states_ok_or_configured params section :
  Forall
    (λ r, state r = State_OK
          ∨ ∃ name c n, (name, Some c) ∈ section ∧ is_ok c = false
                        ∧ params !! name = Some n
                        ∧ State_of_int n = Some (state r))
    (check params section).1.
Proof.
  unfold check. destruct (forallb _ section) eqn:Hall.
  - destruct (mapM summary_line section); simpl; repeat constructor.
  - clear Hall. induction section as [|[name [c|]] rest IH]; [done| |done].
    rewrite check_each_unfold.
    assert (Forall
              (λ r, state r = State_OK
                    ∨ ∃ name0 c0 n, (name0, Some c0) ∈ (name, Some c) :: rest
                                    ∧ is_ok c0 = false
                                    ∧ params !! name0 = Some n
                                    ∧ State_of_int n = Some (state r))
              (check_each params rest).1) as Hrest.
    { eapply Forall_impl; [exact IH|]. intros r [?|(n0 & c0 & n & Hin & ?)]; [by left|].
      right. exists n0, c0, n. split; [by right|done]. }
    destruct (is_ok c) eqn:Hok; simpl.
    + constructor; [by left|done].
    + destruct (params !! name) as [n|] eqn:Hn; [|done].
      destruct (State_of_int n) as [st|] eqn:Hst; [|done]. simpl.
      constructor; [|done]. right. exists name, c, n. split; [by left|done].
Qed.

(** *** With the constructor of [Result] *)

Lemma check_each_built_unfold params name c rest :
  check_each_built params ((name, Some c) :: rest)
  = if is_ok c then
      yield_result State_OK (upper name +:+ ": " +:+ status c)
        ((upper name +:+ ": " +:+ status c)
         +:+ " (" +:+ reason c +:+ ": " +:+ detail c +:+ ")")
        (check_each_built params rest)
    else
      match params !! name with
      | None => ([], Some (InCheck (KeyError name)))
      | Some n =>
          match State_of_int n with
          | None => ([], Some (InCheck (ValueError n)))
          | Some st =>
              yield_result st
                ((upper name +:+ ": " +:+ status c)
                 +:+ " (" +:+ reason c +:+ ": " +:+ detail c +:+ ")")
                ((upper name +:+ ": " +:+ status c)
                 +:+ " (" +:+ reason c +:+ ": " +:+ detail c +:+ ")")
                (check_each_built params rest)
          end
      end.
Proof. simpl. by destruct (is_ok c). Qed.

(** When some condition does not pass, every condition is reported, the
    parameters give a state for every condition that does not pass, and the
    constructor accepts the result of every condition, the check ends
    normally with one result per condition, in their order: state OK and the
    short summary for a condition that passes, the configured state and the
    detailed line as summary for one that does not. *)
Theorem one_result_per_condition_built params section :
  forallb (λ item, passes item.2) section = false →
  Forall
    (λ item, ∃ c, item.2 = Some c
                  ∧ if is_ok c then accepted (result_for item.1 c State_OK)
                    else ∃ n st, params !! item.1 = Some n
                                 ∧ State_of_int n = Some st
                                 ∧ accepted (result_for item.1 c st))
    section →
  ∃ results,
    check_built params section = (results, None)
    ∧ Forall2
        (λ item r,
           ∃ c, item.2 = Some c
                ∧ r = result_for item.1 c (state r)
                ∧ (is_ok c = false →
                   ∃ n, params !! item.1 = Some n
                        ∧ State_of_int n = Some (state r)))
        section results.
Proof.
  intros Hsome Hfine. unfold check_built. rewrite Hsome. clear Hsome.
  induction Hfine as [|[name cond] rest (c & Hc & Hitem) _ (results & Heach & IH)].
  - by exists [].
  - simpl in Hc. subst cond. rewrite check_each_built_unfold, Heach.
    unfold accepted, result_for in Hitem. simpl in Hitem.
    destruct (is_ok c) eqn:Hok; simpl in Hitem.
    + unfold yield_result. rewrite Hitem. eexists. split; [done|].
      constructor; [|done]. exists c. unfold result_for. simpl. by rewrite Hok.
    + destruct Hitem as (n & st & Hn & Hst & Haccepted). rewrite Hn, Hst.
      unfold yield_result. rewrite Haccepted. eexists. split; [done|].
      constructor; [|done]. exists c. unfold result_for. simpl. rewrite Hok.
      repeat split; eauto.
Qed.

Lemma check_each_built_exception params section results e :
  check_each_built params section = (results, Some e) →
  match e with
  | InCheck AttributeError => ∃ name, (name, None) ∈ section
  | InCheck (KeyError key) =>
      ∃ c, (key, Some c) ∈ section ∧ is_ok c = false ∧ params !! key = None
  | InCheck (ValueError value) =>
      ∃ name c, (name, Some c) ∈ section ∧ is_ok c = false
                ∧ params !! name = Some value ∧ State_of_int value = None
  | InResult message =>
      ∃ name c st,
        (name, Some c) ∈ section
        ∧ (is_ok c = false →
           ∃ n, params !! name = Some n ∧ State_of_int n = Some st)
        ∧ Result_raises (state (result_for name c st))
            (summary (result_for name c st)) (details (result_for name c st))
          = Some message
  end.
Proof.
  revert results.
  induction section as [|[name [c|]] rest IH]; intros results; [done| |].
  - assert (∀ rs, check_each_built params rest = (rs, Some e) →
                  match e with
                  | InCheck AttributeError =>
                      ∃ name0, (name0, None) ∈ (name, Some c) :: rest
                  | InCheck (KeyError key) =>
                      ∃ c0, (key, Some c0) ∈ (name, Some c) :: rest
                            ∧ is_ok c0 = false ∧ params !! key = None
                  | InCheck (ValueError value) =>
                      ∃ name0 c0, (name0, Some c0) ∈ (name, Some c) :: rest
                                  ∧ is_ok c0 = false
                                  ∧ params !! name0 = Some value
                                  ∧ State_of_int value = None
                  | InResult message =>
                      ∃ name0 c0 st,
                        (name0, Some c0) ∈ (name, Some c) :: rest
                        ∧ (is_ok c0 = false →
                           ∃ n, params !! name0 = Some n
                                ∧ State_of_int n = Some st)
                        ∧ Result_raises (state (result_for name0 c0 st))
                            (summary (result_for name0 c0 st))
                            (details (result_for name0 c0 st))
                          = Some message
                  end) as Hrest.
    { intros rs Hrs. specialize (IH rs Hrs). destruct e as [[| |]|].
      - destruct IH as [n Hn]. exists n. by right.
      - destruct IH as (c0 & Hn & ?). exists c0. split; [by right|done].
      - destruct IH as (n & c0 & Hn & ?). exists n, c0. split; [by right|done].
      - destruct IH as (n & c0 & st & Hn & ?).
        exists n, c0, st. split; [by right|done]. }
    rewrite check_each_built_unfold. unfold yield_result.
    destruct (check_each_built params rest) as [rs raised] eqn:Heach.
    destruct (is_ok c) eqn:Hok.
    + destruct (Result_raises State_OK _ _) as [message|] eqn:Hraises.
      * intros [= _ <-]. exists name, c, State_OK.
        split; [by left|]. split; [by rewrite Hok|].
        unfold result_for. by rewrite Hok.
      * simpl. intros [= _ ->]. by eapply Hrest.
    + destruct (params !! name) as [n|] eqn:Hn.
      * destruct (State_of_int n) as [st|] eqn:Hst.
        -- destruct (Result_raises st _ _) as [message|] eqn:Hraises.
           ++ intros [= _ <-]. exists name, c, st.
              split; [by left|]. split; [eauto|].
              unfold result_for. by rewrite Hok.
           ++ simpl. intros [= _ ->]. by eapply Hrest.
        -- intros [= _ <-]. exists name, c. split; [by left|done].
      * intros [= _ <-]. exists c. split; [by left|done].
  - simpl. intros [= _ <-]. exists name. by left.
Qed.

(** What the exception that ends a check tells: an attribute error, that
    some condition is not reported; a key error, that the parameters have no
    entry for the named condition, which does not pass; a value error, that
    the entry of a condition that does not pass is no state; an exception of
    the constructor, that it refused the summary result, all conditions
    passing, or the result of a condition of the section. *)
Theorem exception_explained_built params section results e :
  check_built params section = (results, Some e) →
  match e with
  | InCheck AttributeError => ∃ name, (name, None) ∈ section
  | InCheck (KeyError key) =>
      ∃ c, (key, Some c) ∈ section ∧ is_ok c = false ∧ params !! key = None
  | InCheck (ValueError value) =>
      ∃ name c, (name, Some c) ∈ section ∧ is_ok c = false
                ∧ params !! name = Some value ∧ State_of_int value = None
  | InResult message =>
      (forallb (λ item, passes item.2) section = true
       ∧ ∃ details,
           Result_raises State_OK "Ready, all conditions passed" details
           = Some message)
      ∨ ∃ name c st,
          (name, Some c) ∈ section
          ∧ (is_ok c = false →
             ∃ n, params !! name = Some n ∧ State_of_int n = Some st)
          ∧ Result_raises (state (result_for name c st))
              (summary (result_for name c st)) (details (result_for name c st))
            = Some message
  end.
Proof.
  unfold check_built. destruct (forallb _ section) eqn:Hall.
  - destruct (mapM summary_line section) as [lines|] eqn:Hlines.
    + unfold yield_result.
      destruct (Result_raises State_OK _ _) as [message|] eqn:Hraises; [|done].
      intros [= <- <-]. left. eauto.
    + intros [= <- <-]. by apply no_line_for_absent_condition.
  - intros Heach. apply check_each_built_exception in Heach.
    destruct e as [[| |]|]; [done..|]. by right.
Qed.


End NodeConditionsCheck.

(** ** Closed instances *)

(** A protocol fetcher reaches out, the no-fetcher of a push-agent source
    does not. *)
Example program_fetch_connects :
  fetch (methods := logging_config_cache)
    (fetcher (methods := logging_config_cache)
       (OfProgram (SNMPScanConfig := unit) (SectionNameCollection := unit)
          (TLSConfig := unit)
          (mkProgramSource () "zeus" None "cat /tmp/agent" (bounded 120) "/cache")))
    []
  = (inl (TransportFailure "timed out"), ["connect"]).
Proof. reflexivity. Qed.

Example push_agent_fetch_stays_home :
  fetch (methods := logging_config_cache)
    (fetcher (methods := logging_config_cache)
       (OfPushAgent (ConfigCache := unit) (SNMPScanConfig := unit)
          (SectionNameCollection := unit) (TLSConfig := unit)
          (mkPushAgentSource "zeus" None (bounded 120) "/cache")))
    []
  = (inl (NoFetcherFailure NO_FETCHER), []).
Proof. reflexivity. Qed.

Lemma cache_path_follows_policy_witness :
  let src :=
    OfPushAgent (ConfigCache := unit) (SNMPScanConfig := unit)
      (SectionNameCollection := unit) (TLSConfig := unit)
      (mkPushAgentSource "zeus" None (bounded 120) "/omd/tmp/check_mk/cache") in
  plain_names src = true
  ∧ cache_path (file_cache src false (mkFileCacheOptions false false false false))
    = Some "/omd/tmp/check_mk/cache/push-agent/zeus/agent_output".
Proof.
  split; [reflexivity|].
  exact (proj2 (cache_path_follows_policy
           (OfPushAgent (ConfigCache := unit) (SNMPScanConfig := unit)
              (SectionNameCollection := unit) (TLSConfig := unit)
              (mkPushAgentSource "zeus" None (bounded 120) "/omd/tmp/check_mk/cache"))
           false (mkFileCacheOptions false false false false)) eq_refl).
Defined.

Lemma get_single_oid_rejects_unqualified_oid_witness :
  startswith_dot "1.3.6.1.2.1.1.1.0" = false
  ∧ ∃ message,
      get_single_oid snmpsim_backend snmpsim_config "1.3.6.1.2.1.1.1.0" cleared
      = (inl (MKGeneralException message), cleared).
Proof.
  split; [reflexivity|].
  exact (get_single_oid_rejects_unqualified_oid
           snmpsim_backend snmpsim_config "1.3.6.1.2.1.1.1.0" cleared eq_refl).
Defined.


(** A push-agent source configured with an unlimited max-age: its cache has
    an unlimited max-age although neither the simulation flag nor
    [use_outdated] is set. *)
Lemma push_agent_max_age_unlimited_without_flags :
  let self := mkPushAgentSource "zeus" None unlimited "/omd/tmp/check_mk/cache" in
  let o := mkFileCacheOptions false false false false in
  cache_max_age (PushAgentSource_file_cache self false o) = Some unlimited
  ∧ ¬ (false = true ∨ use_outdated o = true).
Proof. split; [reflexivity|]. by intros [?|?]. Qed.


(** *** Closed instances of the further properties *)

Lemma use_outdated_matters_to_push_agent_only_witness :
  let src :=
    OfProgram (SNMPScanConfig := unit) (SectionNameCollection := unit)
      (TLSConfig := unit)
      (mkProgramSource () "zeus" None "cat /tmp/agent" (bounded 120) "/cache") in
  let o := mkFileCacheOptions false false true false in
  is_push_agent src = false
  ∧ file_cache src false (replace_use_outdated true o) = file_cache src false o.
Proof.
  split; [reflexivity|].
  exact (use_outdated_matters_to_push_agent_only
           (OfProgram (SNMPScanConfig := unit) (SectionNameCollection := unit)
              (TLSConfig := unit)
              (mkProgramSource () "zeus" None "cat /tmp/agent" (bounded 120) "/cache"))
           false true (mkFileCacheOptions false false true false) eq_refl).
Defined.

Lemma tcp_use_only_cache_matters_to_tcp_only_witness :
  let src :=
    OfIPMI (SNMPScanConfig := unit) (SectionNameCollection := unit)
      (TLSConfig := unit)
      (mkIPMISource () "zeus" "10.0.0.2" (bounded 120) "/cache") in
  let o := mkFileCacheOptions false false false false in
  is_tcp src = false
  ∧ file_cache src false (replace_tcp_use_only_cache true o) = file_cache src false o.
Proof.
  split; [reflexivity|].
  exact (tcp_use_only_cache_matters_to_tcp_only
           (OfIPMI (SNMPScanConfig := unit) (SectionNameCollection := unit)
              (TLSConfig := unit)
              (mkIPMISource () "zeus" "10.0.0.2" (bounded 120) "/cache"))
           false true (mkFileCacheOptions false false false false) eq_refl).
Defined.

Lemma cache_path_below_directory_witness :
  let src :=
    OfSpecialAgent (SNMPScanConfig := unit) (SectionNameCollection := unit)
      (TLSConfig := unit)
      (mkSpecialAgentSource () "zeus" None (bounded 120) "vsphere/" None
         "agent_vsphere" "/cache/") in
  let o := mkFileCacheOptions false false false false in
  startswith_sep (hostname (source_info src)) = false
  ∧ cache_directory src = Some "/cache/"
  ∧ ∃ rest, cache_path (file_cache src false o) = Some ("/cache/" +:+ rest).
Proof.
  split; [reflexivity|]. split; [reflexivity|].
  exact (cache_path_below_directory
           (OfSpecialAgent (SNMPScanConfig := unit) (SectionNameCollection := unit)
              (TLSConfig := unit)
              (mkSpecialAgentSource () "zeus" None (bounded 120) "vsphere/" None
                 "agent_vsphere" "/cache/"))
           false (mkFileCacheOptions false false false false) "/cache/"
           eq_refl eq_refl).
Defined.

Lemma absolute_host_name_replaces_directory_witness :
  let src :=
    OfPushAgent (ConfigCache := unit) (SNMPScanConfig := unit)
      (SectionNameCollection := unit) (TLSConfig := unit)
      (mkPushAgentSource "/etc" None (bounded 120) "/cache") in
  let o := mkFileCacheOptions false false false false in
  startswith_sep (hostname (source_info src)) = true
  ∧ cache_path (file_cache src false o) = Some "/etc/agent_output".
Proof.
  split; [reflexivity|].
  exact (absolute_host_name_replaces_directory
           (OfPushAgent (ConfigCache := unit) (SNMPScanConfig := unit)
              (SectionNameCollection := unit) (TLSConfig := unit)
              (mkPushAgentSource "/etc" None (bounded 120) "/cache"))
           false (mkFileCacheOptions false false false false) eq_refl).
Defined.

Lemma cache_path_tells_hosts_apart_witness :
  let src1 :=
    OfPushAgent (ConfigCache := unit) (SNMPScanConfig := unit)
      (SectionNameCollection := unit) (TLSConfig := unit)
      (mkPushAgentSource "zeus" None (bounded 120) "/cache") in
  let src2 :=
    OfPushAgent (ConfigCache := unit) (SNMPScanConfig := unit)
      (SectionNameCollection := unit) (TLSConfig := unit)
      (mkPushAgentSource "zeus" (Some "10.0.0.1") unlimited "/cache") in
  let o1 := mkFileCacheOptions false false false false in
  let o2 := mkFileCacheOptions true true false false in
  cache_path (file_cache src1 false o1) = cache_path (file_cache src2 true o2)
  ∧ hostname (source_info src1) = hostname (source_info src2).
Proof.
  split; [reflexivity|].
  exact (cache_path_tells_hosts_apart
           (OfPushAgent (ConfigCache := unit) (SNMPScanConfig := unit)
              (SectionNameCollection := unit) (TLSConfig := unit)
              (mkPushAgentSource "zeus" None (bounded 120) "/cache"))
           (OfPushAgent (ConfigCache := unit) (SNMPScanConfig := unit)
              (SectionNameCollection := unit) (TLSConfig := unit)
              (mkPushAgentSource "zeus" (Some "10.0.0.1") unlimited "/cache"))
           false true (mkFileCacheOptions false false false false)
           (mkFileCacheOptions true true false false)
           eq_refl eq_refl eq_refl eq_refl eq_refl (mk_is_Some _ _ eq_refl) eq_refl).
Defined.

Lemma host_and_management_snmp_caches_apart_witness :
  let host_source :=
    mkSNMPSource () "zeus" "10.0.0.1" () (bounded 120) () None
      "/walks" "/walk_cache" "/cache" in
  let mgmt_source :=
    mkMgmtSNMPSource () "zeus" "10.0.0.2" () (bounded 120) () None
      "/walks" "/walk_cache" "/cache" in
  let o := mkFileCacheOptions false false false false in
  plain_names (OfSNMP (TLSConfig := unit) host_source) = true
  ∧ plain_names (OfMgmtSNMP (TLSConfig := unit) mgmt_source) = true
  ∧ cache_path (file_cache (OfSNMP (TLSConfig := unit) host_source) false o)
    ≠ cache_path (file_cache (OfMgmtSNMP (TLSConfig := unit) mgmt_source) false o).
Proof.
  split; [reflexivity|]. split; [reflexivity|].
  exact (host_and_management_snmp_caches_apart (TLSConfig := unit)
           (mkSNMPSource () "zeus" "10.0.0.1" () (bounded 120) () None
              "/walks" "/walk_cache" "/cache")
           (mkMgmtSNMPSource () "zeus" "10.0.0.2" () (bounded 120) () None
              "/walks" "/walk_cache" "/cache")
           false false (mkFileCacheOptions false false false false)
           (mkFileCacheOptions false false false false)
           eq_refl eq_refl eq_refl).
Defined.

Lemma fetcher_type_none_is_placeholder_witness :
  let src :=
    OfMissingIP (ConfigCache := unit) (SNMPScanConfig := unit)
      (SectionNameCollection := unit) (TLSConfig := unit)
      (mkMissingIPSource "zeus" "snmp") in
  fetcher_type (source_info src) = FetcherType.NONE
  ∧ (∃ canned, fetcher (methods := logging_config_cache) src = NoFetcher canned)
  ∧ file_cache src false (mkFileCacheOptions false false false false) = NoCache.
Proof.
  split; [reflexivity|].
  exact (fetcher_type_none_is_placeholder (methods := logging_config_cache)
           (OfMissingIP (ConfigCache := unit) (SNMPScanConfig := unit)
              (SectionNameCollection := unit) (TLSConfig := unit)
              (mkMissingIPSource "zeus" "snmp"))
           false (mkFileCacheOptions false false false false) eq_refl).
Defined.

Lemma management_sources_witness :
  let src :=
    OfIPMI (SNMPScanConfig := unit) (SectionNameCollection := unit)
      (TLSConfig := unit)
      (mkIPMISource () "zeus" "10.0.0.2" (bounded 120) "/cache") in
  source_type (source_info src) = SourceType.MANAGEMENT
  ∧ (ident (source_info src) = "mgmt_snmp" ∨ ident (source_info src) = "mgmt_ipmi")
  ∧ is_Some (ipaddress (source_info src)).
Proof.
  split; [reflexivity|].
  exact (management_sources
           (OfIPMI (SNMPScanConfig := unit) (SectionNameCollection := unit)
              (TLSConfig := unit)
              (mkIPMISource () "zeus" "10.0.0.2" (bounded 120) "/cache"))
           eq_refl).
Defined.


Lemma absent_condition_ends_in_exception_witness :
  ("networkunavailable", None) ∈ node_under_pressure
  ∧ ∃ results e,
      check (runtime := ascii_runtime) (check_default_parameters (runtime := ascii_runtime))
        node_under_pressure
      = (results, Some e).
Proof.
  assert (("networkunavailable", None) ∈ node_under_pressure) as Hin.
  { unfold node_under_pressure. do 2 apply list_elem_of_further.
    apply list_elem_of_here. }
  split; [exact Hin|].
  exact (absent_condition_ends_in_exception (runtime := ascii_runtime)
           check_default_parameters node_under_pressure "networkunavailable" Hin).
Defined.

Lemma global_use_only_cache_binds_all_witness :
  let src :=
    OfTCP (SNMPScanConfig := unit) (SectionNameCollection := unit)
      (mkTCPSource () "zeus" "10.0.0.1" (bounded 120) "/cache" ()) in
  let o := mkFileCacheOptions false false true false in
  use_only_cache o = true
  ∧ cache_use_only_cache (file_cache src false o) = Some true.
Proof.
  split; [reflexivity|].
  exact (global_use_only_cache_binds_all
           (OfTCP (SNMPScanConfig := unit) (SectionNameCollection := unit)
              (mkTCPSource () "zeus" "10.0.0.1" (bounded 120) "/cache" ()))
           false (mkFileCacheOptions false false true false) eq_refl).
Defined.

Lemma source_methods_are_stable_witness :
  let src :=
    OfTCP (SNMPScanConfig := unit) (SectionNameCollection := unit)
      (mkTCPSource () "zeus" "10.0.0.1" (bounded 120) "/cache" ()) in
  let later :=
    (invoke_all (methods := logging_config_cache) (calls := logging_calls)
       [call_fetcher; call_fetch; call_source_info] (src, [])).2 in
  replies_settled logging_calls
  ∧ later.2 = ["make_tcp_fetcher"; "make_tcp_fetcher"; "connect"]
  ∧ (invoke (methods := logging_config_cache) (calls := logging_calls)
       call_fetcher later).1
    = reply_fetcher (Configured ()).
Proof.
  assert (replies_settled logging_calls) as Hsettled.
  { repeat split; intros; reflexivity. }
  split; [exact Hsettled|]. split; [reflexivity|].
  exact (proj2 (proj2 (proj2 (proj2
           (source_methods_are_stable (methods := logging_config_cache)
              (calls := logging_calls)
              (OfTCP (SNMPScanConfig := unit) (SectionNameCollection := unit)
                 (mkTCPSource () "zeus" "10.0.0.1" (bounded 120) "/cache" ()))
              [] [call_fetcher; call_fetch; call_source_info]))))
           Hsettled).
Defined.

Lemma one_result_per_condition_built_witness :
  let section := take 2 node_under_pressure in
  let params : gmap string Z := {[ "memorypressure" := 1%Z ]} in
  forallb (λ item, passes item.2) section = false
  ∧ ∃ results,
      check_built (runtime := ascii_runtime) (constructor := one_line_summaries)
        params section = (results, None)
      ∧ length results = 2.
Proof.
  split; [reflexivity|].
  destruct (one_result_per_condition_built (runtime := ascii_runtime)
              (constructor := one_line_summaries)
              {[ "memorypressure" := 1%Z ]} (take 2 node_under_pressure) eq_refl)
    as (results & Hcheck & Hall).
  - repeat constructor; simpl; eexists; (split; [reflexivity|]); simpl.
    + reflexivity.
    + exists 1%Z, State.WARN. repeat split.
  - exists results. split; [exact Hcheck|].
    apply Forall2_length in Hall. symmetry. exact Hall.
Defined.

Lemma exception_explained_built_witness :
  let params : gmap string Z := {[ "ready" := 2%Z ]} in
  check_built (runtime := ascii_runtime) (constructor := one_line_summaries)
    params node_with_long_story
  = ([], Some (InResult "'\n' not allowed in 'summary'"))
  ∧ ∃ name c st,
      (name, Some c) ∈ node_with_long_story
      ∧ (is_ok c = false →
         ∃ n, params !! name = Some n ∧ State.of_int n = Some st)
      ∧ Result_raises (ResultConstructor := one_line_summaries)
          (state (result_for (runtime := ascii_runtime) name c st))
          (summary (result_for (runtime := ascii_runtime) name c st))
          (details (result_for (runtime := ascii_runtime) name c st))
        = Some "'\n' not allowed in 'summary'".
Proof.
  assert (check_built (runtime := ascii_runtime) (constructor := one_line_summaries)
            {[ "ready" := 2%Z ]} node_with_long_story
          = ([], Some (InResult "'\n' not allowed in 'summary'"))) as Hcheck.
  { reflexivity. }
  split; [exact Hcheck|].
  destruct (exception_explained_built (runtime := ascii_runtime)
              (constructor := one_line_summaries)
              {[ "ready" := 2%Z ]} node_with_long_story []
              (InResult "'\n' not allowed in 'summary'") Hcheck)
    as [[Hall _]|Hcause].
  - discriminate Hall.
  - exact Hcause.
Defined.


